(** * Data Insights: a shallow embedding of the client store, the upload gate,
    the endpoint table and the data pipeline.

    The client side (Redux slices, [API_ENDPOINTS], [beforeUpload]) is
    translated from the TypeScript sources.  JavaScript numbers that hold
    measurements are modelled as exact rationals [Q], day offsets as
    integers [Z] and byte counts as naturals [N]; a field of type
    [T | null] is an [option T].  A reducer written against an Immer draft
    is the function from the state before to the state after. *)

From Stdlib Require Import ZArith QArith Qround Lqa Lia Bool Ascii String.
From Stdlib Require Import Sorting.Sorted.
From stdpp Require Import base option list strings gmap.

Local Open Scope string_scope.

(** Strict comparison of two numbers, the JavaScript [<] on finite values. *)
Definition Qltb (x y : Q) : bool := negb (Qle_bool y x).

(** ** types/api.types.ts *)

Inductive ChartType := LINE | CUMULATIVE.

Module SeriesData.
(** [count_stat] is the per-row "defined" mask of the series. *)
Record t := mk {
  name : string;
  x_values : list Z;
  y_values : list (option Q);
  count_stat : list bool;
  color : option string;
  visible : bool;
}.

Definition set_visible (v : bool) (s : t) : t :=
  mk (name s) (x_values s) (y_values s) (count_stat s) (color s) v.

Definition set_color (c : string) (s : t) : t :=
  mk (name s) (x_values s) (y_values s) (count_stat s) (Some c) (visible s).
End SeriesData.

Module StatisticsData.
(** A slot is [None] where the wire format carries [null]. *)
Record t := mk {
  p10 : list (option Q);
  p50 : list (option Q);
  p90 : list (option Q);
}.
End StatisticsData.

Module ProcessedData.
Record t := mk {
  session_id : string;
  series : list SeriesData.t;
  statistics : StatisticsData.t;
  original_filename : string;
  created_at : string;
}.

Definition set_series (l : list SeriesData.t) (pd : t) : t :=
  mk (session_id pd) l (statistics pd) (original_filename pd) (created_at pd).
End ProcessedData.

Module SeriesConfig.
Record t := mk {
  name : string;
  visible : bool;
  color : option string;
}.
End SeriesConfig.

Module ChartConfig.
Record t := mk {
  session_id : string;
  chart_type : ChartType;
  show_legend : bool;
  show_defined_points : bool;
  show_p10 : bool;
  show_p50 : bool;
  show_p90 : bool;
  series_config : option (list SeriesConfig.t);
}.
End ChartConfig.

Module UploadResponse.
Record t := mk {
  session_id : string;
  message : string;
  series_count : Z;
  total_rows : Z;
  original_filename : string;
}.
End UploadResponse.

(** ** services/config.ts *)

Module Config.
Definition API_VERSION : string := "/api/v1".

Definition UPLOAD : string := API_VERSION +:+ "/upload/".
Definition DATA (sessionId : string) : string :=
  API_VERSION +:+ "/data/" +:+ sessionId.
Definition CHART_GENERATE : string := API_VERSION +:+ "/chart/generate".
Definition CHART_PREVIEW (sessionId : string) : string :=
  API_VERSION +:+ "/chart/preview/" +:+ sessionId.
Definition EXPORT (sessionId : string) : string :=
  API_VERSION +:+ "/export/" +:+ sessionId.
Definition EXPORT_CSV (sessionId : string) : string :=
  API_VERSION +:+ "/export/csv/" +:+ sessionId.
Definition EXPORT_HTML (sessionId : string) : string :=
  API_VERSION +:+ "/export/html/" +:+ sessionId.
Definition SESSION_DELETE (sessionId : string) : string :=
  API_VERSION +:+ "/session/" +:+ sessionId.
Definition SESSION_STATUS (sessionId : string) : string :=
  API_VERSION +:+ "/session/" +:+ sessionId +:+ "/status".
End Config.

(** ** components/Upload/FileUploader.tsx *)

(** The three attributes of a DOM [File] that the gate reads.  [size] is a
    byte count, hence a non-negative integer. *)
Module File.
Record t := mk {
  type : string;
  name : string;
  size : N;
}.
End File.

Module FileUploader.
(** [String.prototype.endsWith]: the last [length search] characters of
    [s] are [search]. *)
Definition endsWith (s search : string) : bool :=
  let n := String.length s in
  let k := String.length search in
  if (k <=? n)%nat
  then bool_decide (String.substring (n - k) k s = search)
  else false.

(** The gate returns its verdict together with the [message.error] texts
    it raises.  Dividing an integer below 2^53 by 1024 is exact in binary
    floating point, so [file.size / 1024 / 1024] is computed in [Q]. *)
Definition beforeUpload (file : File.t) : bool * list string :=
  let isCSV := bool_decide (File.type file = "text/csv")
               || endsWith (File.name file) ".csv" in
  if negb isCSV then (false, ["You can only upload CSV files!"])
  else
    let isLt50M :=
      Qltb (inject_Z (Z.of_N (File.size file)) / 1024 / 1024) 50 in
    if negb isLt50M then (false, ["File must be smaller than 50MB!"])
    else (true, []).
End FileUploader.

(** ** store/slices/sessionSlice.ts *)

Module SessionSlice.
Record SessionState := mkState {
  sessionId : option string;
  processedData : option ProcessedData.t;
  isUploading : bool;
  uploadError : option string;
}.

Definition initialState : SessionState :=
  {| sessionId := None; processedData := None;
     isUploading := false; uploadError := None |}.

(** [Array.prototype.find] with the predicate [s.name === seriesName]:
    the first series of that name, with its position so that the
    assignment to one of its fields can be written back. *)
Definition find_series (seriesName : string) (l : list SeriesData.t)
  : option (nat * SeriesData.t) :=
  list_find (fun s => SeriesData.name s = seriesName) l.

Definition setSessionId (state : SessionState) (payload : option string)
  : SessionState :=
  mkState payload (processedData state) (isUploading state) (uploadError state).

Definition setProcessedData (state : SessionState)
    (payload : option ProcessedData.t) : SessionState :=
  mkState (sessionId state) payload (isUploading state) (uploadError state).

Definition updateSeriesVisibility (state : SessionState)
    (seriesName : string) (visible : bool) : SessionState :=
  match processedData state with
  | Some pd =>
      match find_series seriesName (ProcessedData.series pd) with
      | Some (i, series) =>
          let series' := SeriesData.set_visible visible series in
          let pd' :=
            ProcessedData.set_series (<[i := series']> (ProcessedData.series pd)) pd in
          mkState (sessionId state) (Some pd') (isUploading state) (uploadError state)
      | None => state
      end
  | None => state
  end.

Definition updateSeriesColor (state : SessionState)
    (seriesName : string) (color : string) : SessionState :=
  match processedData state with
  | Some pd =>
      match find_series seriesName (ProcessedData.series pd) with
      | Some (i, series) =>
          let series' := SeriesData.set_color color series in
          let pd' :=
            ProcessedData.set_series (<[i := series']> (ProcessedData.series pd)) pd in
          mkState (sessionId state) (Some pd') (isUploading state) (uploadError state)
      | None => state
      end
  | None => state
  end.

Definition resetSession (state : SessionState) : SessionState :=
  mkState None None (isUploading state) None.

(** The cases registered in [extraReducers]. *)
Definition uploadFile_pending (state : SessionState) : SessionState :=
  mkState (sessionId state) (processedData state) true None.

Definition uploadFile_fulfilled (state : SessionState)
    (uploadResponse : UploadResponse.t) (pd : ProcessedData.t) : SessionState :=
  mkState (Some (UploadResponse.session_id uploadResponse)) (Some pd) false None.

Definition uploadFile_rejected (state : SessionState)
    (payload : option string) : SessionState :=
  mkState (sessionId state) (processedData state) false payload.

Definition deleteSession_fulfilled (state : SessionState) : SessionState :=
  mkState None None (isUploading state) None.

(** The actions the slice reacts to.  [deleteSession.pending] and
    [deleteSession.rejected] have no registered case, and neither has any
    action of another slice ([OtherAction]): the reducer returns the state
    it was given.  The payload of [uploadFile.rejected] is absent when the
    thunk is rejected without [rejectWithValue]. *)
Inductive Action :=
| SetSessionId (payload : option string)
| SetProcessedData (payload : option ProcessedData.t)
| UpdateSeriesVisibility (seriesName : string) (visible : bool)
| UpdateSeriesColor (seriesName : string) (color : string)
| ResetSession
| UploadFilePending
| UploadFileFulfilled (uploadResponse : UploadResponse.t)
                      (processedData : ProcessedData.t)
| UploadFileRejected (payload : option string)
| DeleteSessionPending
| DeleteSessionFulfilled
| DeleteSessionRejected
| OtherAction.

Definition reducer (state : SessionState) (a : Action) : SessionState :=
  match a with
  | SetSessionId p => setSessionId state p
  | SetProcessedData p => setProcessedData state p
  | UpdateSeriesVisibility n v => updateSeriesVisibility state n v
  | UpdateSeriesColor n c => updateSeriesColor state n c
  | ResetSession => resetSession state
  | UploadFilePending => uploadFile_pending state
  | UploadFileFulfilled r pd => uploadFile_fulfilled state r pd
  | UploadFileRejected p => uploadFile_rejected state p
  | DeleteSessionFulfilled => deleteSession_fulfilled state
  | DeleteSessionPending | DeleteSessionRejected | OtherAction => state
  end.

(** States the store can be in: the initial one and every state obtained
    from a reachable one by dispatching an action. *)
Inductive reachable : SessionState -> Prop :=
| reachable_init : reachable initialState
| reachable_step state a :
    reachable state -> reachable (reducer state a).

Definition run (actions : list Action) : SessionState :=
  fold_left reducer actions initialState.

(** What an update of one series leaves alone: the fields of the state
    outside [processedData], the fields of the data outside [series], the
    series at every other position, and the other fields of the series. *)
Definition same_outside_data (st st' : SessionState) : Prop :=
  sessionId st' = sessionId st
  /\ isUploading st' = isUploading st
  /\ uploadError st' = uploadError st.

Definition same_outside_series (pd pd' : ProcessedData.t) : Prop :=
  ProcessedData.session_id pd' = ProcessedData.session_id pd
  /\ ProcessedData.statistics pd' = ProcessedData.statistics pd
  /\ ProcessedData.original_filename pd' = ProcessedData.original_filename pd
  /\ ProcessedData.created_at pd' = ProcessedData.created_at pd.

Definition same_series_but (i : nat) (l l' : list SeriesData.t) : Prop :=
  length l' = length l
  /\ forall j, j <> i -> l' !! j = l !! j.

Definition same_but_visible (s s' : SeriesData.t) : Prop :=
  SeriesData.name s' = SeriesData.name s
  /\ SeriesData.x_values s' = SeriesData.x_values s
  /\ SeriesData.y_values s' = SeriesData.y_values s
  /\ SeriesData.count_stat s' = SeriesData.count_stat s
  /\ SeriesData.color s' = SeriesData.color s.

Definition same_but_color (s s' : SeriesData.t) : Prop :=
  SeriesData.name s' = SeriesData.name s
  /\ SeriesData.x_values s' = SeriesData.x_values s
  /\ SeriesData.y_values s' = SeriesData.y_values s
  /\ SeriesData.count_stat s' = SeriesData.count_stat s
  /\ SeriesData.visible s' = SeriesData.visible s.
End SessionSlice.

(** ** store/slices/chartSlice.ts *)

Module ChartSlice.
Record ChartSettings := mkSettings {
  showLegend : bool;
  showDefinedPoints : bool;
  showP10 : bool;
  showP50 : bool;
  showP90 : bool;
  chartType : ChartType;
}.

(** [Partial<ChartSettings>]: every key may be missing. *)
Record PartialChartSettings := mkPartial {
  showLegend_opt : option bool;
  showDefinedPoints_opt : option bool;
  showP10_opt : option bool;
  showP50_opt : option bool;
  showP90_opt : option bool;
  chartType_opt : option ChartType;
}.

Record ChartData := mkChartData {
  line : gmap string (string + Q);
  name : string;
  mode : string;
  type : string;
  x : list Q;
  y : list Q;
}.

Inductive Hovermode :=
| HoverFalse | HoverX | HoverY | HoverClosest
| HoverXUnified | HoverYUnified | HoverUndefined.

Record ChartLayout := mkChartLayout {
  height : Q;
  width : Q;
  hovermode : Hovermode;
  title : gmap string string;
  xaxis : gmap string string;
  yaxis : gmap string string;
}.

Record ChartAllData := mkChartAllData {
  data : list ChartData;
  layout : ChartLayout;
}.

Record StatisticsColors := mkColors {
  p10 : string;
  p50 : string;
  p90 : string;
}.

Record ChartState := mkState {
  chartData : option ChartAllData;
  chartConfig : option ChartConfig.t;
  settings : ChartSettings;
  statisticsColors : option StatisticsColors;
  isGenerating : bool;
  generateError : option string;
}.

Definition initialState : ChartState :=
  {| chartData := None;
     chartConfig := None;
     settings := {| showLegend := true; showDefinedPoints := false;
                    showP10 := false; showP50 := false; showP90 := false;
                    chartType := LINE |};
     statisticsColors := None;
     isGenerating := false;
     generateError := None |}.

Definition set_settings (st : ChartSettings) (state : ChartState) : ChartState :=
  mkState (chartData state) (chartConfig state) st (statisticsColors state)
          (isGenerating state) (generateError state).

(** [{ ...state.settings, ...action.payload }]: a key present in the
    payload overrides the stored one. *)
Definition updateSettings (state : ChartState) (p : PartialChartSettings)
  : ChartState :=
  let st := settings state in
  set_settings
    {| showLegend := default (showLegend st) (showLegend_opt p);
       showDefinedPoints := default (showDefinedPoints st) (showDefinedPoints_opt p);
       showP10 := default (showP10 st) (showP10_opt p);
       showP50 := default (showP50 st) (showP50_opt p);
       showP90 := default (showP90 st) (showP90_opt p);
       chartType := default (chartType st) (chartType_opt p) |} state.

Definition setChartType (state : ChartState) (payload : ChartType) : ChartState :=
  let st := settings state in
  set_settings (mkSettings (showLegend st) (showDefinedPoints st) (showP10 st)
                           (showP50 st) (showP90 st) payload) state.

Definition toggleLegend (state : ChartState) : ChartState :=
  let st := settings state in
  set_settings (mkSettings (negb (showLegend st)) (showDefinedPoints st)
                           (showP10 st) (showP50 st) (showP90 st) (chartType st))
               state.

Definition toggleDefinedPoints (state : ChartState) : ChartState :=
  let st := settings state in
  set_settings (mkSettings (showLegend st) (negb (showDefinedPoints st))
                           (showP10 st) (showP50 st) (showP90 st) (chartType st))
               state.

Definition toggleP10 (state : ChartState) : ChartState :=
  let st := settings state in
  set_settings (mkSettings (showLegend st) (showDefinedPoints st)
                           (negb (showP10 st)) (showP50 st) (showP90 st) (chartType st))
               state.

Definition toggleP50 (state : ChartState) : ChartState :=
  let st := settings state in
  set_settings (mkSettings (showLegend st) (showDefinedPoints st)
                           (showP10 st) (negb (showP50 st)) (showP90 st) (chartType st))
               state.

Definition toggleP90 (state : ChartState) : ChartState :=
  let st := settings state in
  set_settings (mkSettings (showLegend st) (showDefinedPoints st)
                           (showP10 st) (showP50 st) (negb (showP90 st)) (chartType st))
               state.

Definition resetChart (state : ChartState) : ChartState :=
  mkState None None (settings state) (statisticsColors state)
          (isGenerating state) None.

(** The three shared shapes of the [extraReducers] cases of
    [generateChart] and [getChartPreview]. *)
Definition thunk_pending (state : ChartState) : ChartState :=
  mkState (chartData state) (chartConfig state) (settings state)
          (statisticsColors state) true None.

Definition thunk_fulfilled (state : ChartState) (cd : option ChartAllData)
    (cfg : ChartConfig.t) (colors : StatisticsColors) : ChartState :=
  mkState cd (Some cfg) (settings state) (Some colors) false None.

Definition thunk_rejected (state : ChartState) (payload : option string)
  : ChartState :=
  mkState (chartData state) (chartConfig state) (settings state)
          (statisticsColors state) false payload.

Definition uploadFile_fulfilled (state : ChartState) : ChartState :=
  mkState None None (settings state) (statisticsColors state) false None.

Inductive Action :=
| UpdateSettings (payload : PartialChartSettings)
| SetChartType (payload : ChartType)
| ToggleLegend
| ToggleDefinedPoints
| ToggleP10
| ToggleP50
| ToggleP90
| ResetChart
| GenerateChartPending
| GenerateChartFulfilled (chartData : option ChartAllData)
    (chartConfig : ChartConfig.t) (statisticsColors : StatisticsColors)
| GenerateChartRejected (payload : option string)
| GetChartPreviewPending
| GetChartPreviewFulfilled (chartData : option ChartAllData)
    (chartConfig : ChartConfig.t) (statisticsColors : StatisticsColors)
| GetChartPreviewRejected (payload : option string)
| UploadFileFulfilled.

Definition reducer (state : ChartState) (a : Action) : ChartState :=
  match a with
  | UpdateSettings p => updateSettings state p
  | SetChartType t => setChartType state t
  | ToggleLegend => toggleLegend state
  | ToggleDefinedPoints => toggleDefinedPoints state
  | ToggleP10 => toggleP10 state
  | ToggleP50 => toggleP50 state
  | ToggleP90 => toggleP90 state
  | ResetChart => resetChart state
  | GenerateChartPending | GetChartPreviewPending => thunk_pending state
  | GenerateChartFulfilled cd cfg col
  | GetChartPreviewFulfilled cd cfg col => thunk_fulfilled state cd cfg col
  | GenerateChartRejected p | GetChartPreviewRejected p => thunk_rejected state p
  | UploadFileFulfilled => uploadFile_fulfilled state
  end.

(** The five boolean display flags of [ChartSettings], with the action
    that toggles each and the projection that reads it. *)
Inductive Flag := FLegend | FDefinedPoints | FP10 | FP50 | FP90.

Definition toggle (f : Flag) : Action :=
  match f with
  | FLegend => ToggleLegend
  | FDefinedPoints => ToggleDefinedPoints
  | FP10 => ToggleP10
  | FP50 => ToggleP50
  | FP90 => ToggleP90
  end.

Definition flag (f : Flag) (st : ChartSettings) : bool :=
  match f with
  | FLegend => showLegend st
  | FDefinedPoints => showDefinedPoints st
  | FP10 => showP10 st
  | FP50 => showP50 st
  | FP90 => showP90 st
  end.

Definition Flag_eqb (f g : Flag) : bool :=
  match f, g with
  | FLegend, FLegend | FDefinedPoints, FDefinedPoints
  | FP10, FP10 | FP50, FP50 | FP90, FP90 => true
  | _, _ => false
  end.
End ChartSlice.

(** ** The server-side pipeline

    The Python backend that ingests the CSV, aligns the series, computes the
    statistics and builds the chart is not part of the sources at hand.  The
    definitions of this module follow sections 3 and 4 of the specification;
    each says so in its documentation. *)

Module Pipeline.

Inductive ValidationError := EmptyFile | UnpairedColumn | NoNumericData.

(** *** SeriesAligner and master timeline *)

(** Modelled from the spec: the duplicate collapse of the SeriesAligner
    (4.2).  A point is stored in a list kept strictly increasing in its day
    offset; a point whose day is already present replaces the stored value
    (last write wins). *)
Fixpoint insert_point (x : Z) (y : option Q) (l : list (Z * option Q))
  : list (Z * option Q) :=
  match l with
  | [] => [(x, y)]
  | (x', y') :: rest =>
      if (x <? x')%Z then (x, y) :: l
      else if (x =? x')%Z then (x, y) :: rest
      else (x', y') :: insert_point x y rest
  end.

(** Modelled from the spec: insertion of a day offset into the sorted set
    that is the MasterTimeline (3). *)
Fixpoint insert_day (x : Z) (l : list Z) : list Z :=
  match l with
  | [] => [x]
  | x' :: rest =>
      if (x <? x')%Z then x :: l
      else if (x =? x')%Z then l
      else x' :: insert_day x rest
  end.

(** Modelled from the spec: the MasterTimeline, the sorted union of the
    distinct [x_values] of all series (3, 4.2). *)
Definition master_timeline (ss : list SeriesData.t) : list Z :=
  fold_left (fun acc x => insert_day x acc)
            (concat (map SeriesData.x_values ss)) [].

(** Modelled from the spec: a cell is defined when it holds a number (3,
    [defined_mask]). *)
Definition is_defined (y : option Q) : bool :=
  match y with Some _ => true | None => false end.

(** Modelled from the spec: the Series record built from the aligned
    points of one column pair (3): the three sequences are the three
    components of the same point list; a fresh series is visible and has no
    colour of its own. *)
Definition make_series (name : string) (pts : list (Z * option Q))
  : SeriesData.t :=
  SeriesData.mk name (map fst pts) (map snd pts)
                (map (fun p => is_defined (snd p)) pts) None true.

(** *** CSVIngestor *)

(** Modelled from the spec: the pieces of a text between occurrences of
    a separator, for the lines of the file and the cells of a line (4.1). *)
Fixpoint split_on (sep : ascii) (s : string) : list string :=
  match s with
  | EmptyString => [EmptyString]
  | String c rest =>
      if Ascii.eqb c sep then EmptyString :: split_on sep rest
      else match split_on sep rest with
           | [] => [String c EmptyString]
           | w :: ws => String c w :: ws
           end
  end.

(** Modelled from the spec: the line and cell separators of the file
    (4.1). *)
Definition newline : ascii := "010"%char.
Definition comma : ascii := ","%char.

(** Modelled from the spec: the rows of the file, one list of cells per
    non-empty line (4.1). *)
Definition rows_of (csv : string) : list (list string) :=
  map (split_on comma)
      (filter (fun l => l <> EmptyString) (split_on newline csv)).

(** Modelled from the spec: columns occur in pairs, X first and Y second,
    and the series is named by the header of its Y column; an unpaired
    trailing column is an error (4.1).  The result lists the index of each
    X column with the series name. *)
Fixpoint pair_columns (k : nat) (header : list string)
  : option (list (nat * string)) :=
  match header with
  | [] => Some []
  | [_] => None
  | _ :: yname :: rest =>
      match pair_columns (S (S k)) rest with
      | Some ps => Some ((k, yname) :: ps)
      | None => None
      end
  end.

(** Modelled from the spec: the cell of a row in column [k]; a row that is
    too short has an empty cell there, which is not numeric (4.1). *)
Definition cell (row : list string) (k : nat) : string :=
  nth k row EmptyString.

Section Ingest.
(** The specification fixes neither the numeric syntax of a cell, nor the
    month-to-day factor, nor the rounding mode: the ingestor is stated
    for any choice of the three. *)
Variable parse_number : string -> option Q.
Variable DAYS_PER_MONTH : Q.
Variable round : Q -> Z.

(** Modelled from the spec: month values become integer day offsets
    (4.2). *)
Definition to_days (months : Q) : Z := round (months * DAYS_PER_MONTH)%Q.

(** Modelled from the spec: the points of the column pair starting at
    column [k] (4.1).  A row is kept when its X cell is numeric; its Y
    is undefined when the Y cell is not. *)
Definition raw_points (k : nat) (body : list (list string))
  : list (Q * option Q) :=
  omap (fun row =>
          match parse_number (cell row k) with
          | Some x => Some (x, parse_number (cell row (S k)))
          | None => None
          end) body.

(** Modelled from the spec: conversion to days and duplicate collapse,
    rows taken in file order (4.2). *)
Definition align (pts : list (Q * option Q)) : list (Z * option Q) :=
  fold_left (fun acc p => insert_point (to_days (fst p)) (snd p) acc) pts [].

(** Modelled from the spec: whether a column pair yields any numeric Y
    value (4.1). *)
Definition has_defined (s : SeriesData.t) : bool :=
  existsb id (SeriesData.count_stat s).

(** Modelled from the spec: CSVIngestor followed by SeriesAligner (4.1,
    4.2).  The first row is the header.  An empty file, an unpaired
    trailing column, and a file without any numeric Y value are
    validation errors. *)
Definition ingest (csv : string) : ValidationError + list SeriesData.t :=
  match rows_of csv with
  | [] => inl EmptyFile
  | header :: body =>
      match pair_columns 0 header with
      | None => inl UnpairedColumn
      | Some cols =>
          let ss :=
            map (fun c => make_series (snd c) (align (raw_points (fst c) body)))
                cols in
          if existsb has_defined ss then inr ss else inl NoNumericData
      end
  end.
End Ingest.

(** *** StatisticsEngine *)

(** Modelled from the spec: the defined Y values a series has exactly at
    timeline point [t] (4.3). *)
Definition values_at (t : Z) (s : SeriesData.t) : list Q :=
  omap (fun p => if (fst p =? t)%Z then snd p else None)
       (zip (SeriesData.x_values s) (SeriesData.y_values s)).

(** Modelled from the spec: the defined Y values of all series at
    timeline point [t] (4.3). *)
Definition collect (t : Z) (ss : list SeriesData.t) : list Q :=
  concat (map (values_at t) ss).

(** Modelled from the spec: the collected values in increasing order, the
    "sorted list" of the percentile method (4.3), by insertion. *)
Fixpoint insert_sorted (v : Q) (l : list Q) : list Q :=
  match l with
  | [] => [v]
  | w :: rest =>
      if Qle_bool v w then v :: l else w :: insert_sorted v rest
  end.

Definition sort_values (l : list Q) : list Q :=
  fold_right insert_sorted [] l.

(** Modelled from the spec: linear interpolation at the fractional index
    [h] of a sorted list, between the order statistics at the two integer
    indices that bracket [h] (4.3). *)
Definition interpolate (sorted : list Q) (h : Q) : Q :=
  let n := Z.of_nat (length sorted) in
  let lo := Qfloor h in
  let hi := Z.min (lo + 1) (n - 1) in
  let frac := (h - inject_Z lo)%Q in
  let a := nth (Z.to_nat lo) sorted 0%Q in
  let b := nth (Z.to_nat hi) sorted 0%Q in
  (a + frac * (b - a))%Q.

(** Modelled from the spec: the "linear" percentile (4.3).  For a sorted
    list of length [n] the percentile at rank [p] sits at the fractional
    index [p * (n - 1)]; with no data it is undefined. *)
Definition percentile (p : Q) (sorted : list Q) : option Q :=
  match sorted with
  | [] => None
  | _ :: _ =>
      let n := Z.of_nat (length sorted) in
      Some (interpolate sorted (p * inject_Z (n - 1))%Q)
  end.

Definition percentile_at (p : Q) (ss : list SeriesData.t) (t : Z) : option Q :=
  percentile p (sort_values (collect t ss)).

(** Modelled from the spec: the Statistics record, three sequences aligned
    with the MasterTimeline (3, 4.3). *)
Definition compute_statistics (ss : list SeriesData.t) : StatisticsData.t :=
  let tl := master_timeline ss in
  StatisticsData.mk (map (percentile_at (1 # 10) ss) tl)
                    (map (percentile_at (1 # 2) ss) tl)
                    (map (percentile_at (9 # 10) ss) tl).

(** Modelled from the spec: the ProcessedData record created at upload
    time (3); the identifier and the timestamp come from the SessionStore. *)
Definition process (session_id filename created_at : string)
    (ss : list SeriesData.t) : ProcessedData.t :=
  ProcessedData.mk session_id ss (compute_statistics ss) filename created_at.
End Pipeline.

(** ** ChartSpecBuilder *)

Module ChartSpecBuilder.
(** The constants the specification leaves to the implementation: the
    fixed palette, the fixed colours of the overlay traces, the texts of
    the layout and the default size. *)
Record Theme := mkTheme {
  palette : list string;
  p10_color : string;
  p50_color : string;
  p90_color : string;
  points_color : string;
  title_text : ChartType -> string;
  x_label : string;
  y_label : string;
  default_width : Z;
  default_height : Z;
}.

Record Trace := mkTrace {
  name : string;
  x : list Z;
  y : list (option Q);
  line_color : string;
  mode : string;
}.

Record Layout := mkLayout {
  title : string;
  xaxis_title : string;
  yaxis_title : string;
  width : Z;
  height : Z;
  showlegend : bool;
}.

Record ChartDescriptor := mkChart {
  traces : list Trace;
  layout : Layout;
}.

(** Modelled from the spec: a colour that is not set explicitly is taken
    from the fixed palette at the position of the series (4.4). *)
Definition palette_color (th : Theme) (i : nat) : string :=
  nth (i mod length (palette th)) (palette th) EmptyString.

(** Modelled from the spec: the [series_config] entry for a series name,
    the first one when several entries carry the name (4.4). *)
Definition find_config (name : string) (cfgs : list SeriesConfig.t)
  : option SeriesConfig.t :=
  snd <$> list_find (fun c => SeriesConfig.name c = name) cfgs.

(** Modelled from the spec: the [series_config] entry of a series, when
    there is one, overrides its stored [visible] and [color]; a series
    without an entry keeps the stored values (4.4). *)
Definition effective (th : Theme) (cfg : ChartConfig.t) (i : nat)
    (s : SeriesData.t) : SeriesData.t :=
  let ov := ChartConfig.series_config cfg ≫= find_config (SeriesData.name s) in
  let vis := match ov with
             | Some c => SeriesConfig.visible c
             | None => SeriesData.visible s
             end in
  let col := match ov ≫= SeriesConfig.color with
             | Some c => Some c
             | None => SeriesData.color s
             end in
  SeriesData.mk (SeriesData.name s) (SeriesData.x_values s)
                (SeriesData.y_values s) (SeriesData.count_stat s)
                (Some (default (palette_color th i) col)) vis.

(** Modelled from the spec: the effective visible set, the series whose
    effective [visible] is true, in stored order (4.4). *)
Definition visible_series (th : Theme) (pd : ProcessedData.t)
    (cfg : ChartConfig.t) : list SeriesData.t :=
  filter (fun s => SeriesData.visible s = true)
         (imap (effective th cfg) (ProcessedData.series pd)).

(** Modelled from the spec: the running total of a cumulative trace; an
    undefined point adds nothing and does not reset the total (4.4). *)
Fixpoint running_sum (acc : Q) (ys : list (option Q)) : list Q :=
  match ys with
  | [] => []
  | y :: rest =>
      let acc' := match y with Some v => (acc + v)%Q | None => acc end in
      acc' :: running_sum acc' rest
  end.

(** Modelled from the spec: one trace per visible series; [line] keeps the
    Y values with their gaps, [cumulative] shows the running total (4.4). *)
Definition series_trace (ct : ChartType) (s : SeriesData.t) : Trace :=
  let ys := match ct with
            | LINE => SeriesData.y_values s
            | CUMULATIVE => map Some (running_sum 0 (SeriesData.y_values s))
            end in
  mkTrace (SeriesData.name s) (SeriesData.x_values s) ys
          (default EmptyString (SeriesData.color s)) "lines".

(** Modelled from the spec: whether a series has a defined value at day
    [t], and the number of series that do (4.4, [show_defined_points]). *)
Definition defined_at (t : Z) (s : SeriesData.t) : bool :=
  existsb (fun p => (fst p =? t)%Z && snd p)
          (zip (SeriesData.x_values s) (SeriesData.count_stat s)).

Definition defined_count (ss : list SeriesData.t) (t : Z) : option Q :=
  Some (inject_Z (Z.of_nat (length (List.filter (defined_at t) ss)))).

(** Modelled from the spec: an overlay is its own trace, present when its
    flag is set (4.4). *)
Definition overlay (flag : bool) (tr : Trace) : list Trace :=
  if flag then [tr] else [].

(** Modelled from the spec: the chart descriptor (4.4): the series traces,
    then one overlay trace over the MasterTimeline for each flag that is
    set, and a layout in which [show_legend] is only a rendering hint. *)
Definition build_chart (th : Theme) (pd : ProcessedData.t)
    (cfg : ChartConfig.t) : ChartDescriptor :=
  let ct := ChartConfig.chart_type cfg in
  let tl := Pipeline.master_timeline (ProcessedData.series pd) in
  let st := ProcessedData.statistics pd in
  mkChart
    (map (series_trace ct) (visible_series th pd cfg)
     ++ overlay (ChartConfig.show_p10 cfg)
          (mkTrace "P10" tl (StatisticsData.p10 st) (p10_color th) "lines")
     ++ overlay (ChartConfig.show_p50 cfg)
          (mkTrace "P50" tl (StatisticsData.p50 st) (p50_color th) "lines")
     ++ overlay (ChartConfig.show_p90 cfg)
          (mkTrace "P90" tl (StatisticsData.p90 st) (p90_color th) "lines")
     ++ overlay (ChartConfig.show_defined_points cfg)
          (mkTrace "Defined points" tl
                   (map (defined_count (ProcessedData.series pd)) tl)
                   (points_color th) "lines+markers"))
    (mkLayout (title_text th ct) (x_label th) (y_label th)
              (default_width th) (default_height th)
              (ChartConfig.show_legend cfg)).

(** Modelled from the spec: the sum of the defined values of a sequence,
    an undefined entry counting for zero (4.4, 8). *)
Fixpoint sum_defined (ys : list (option Q)) : Q :=
  match ys with
  | [] => 0
  | y :: rest => (default 0 y + sum_defined rest)%Q
  end.
End ChartSpecBuilder.

(** ** JavaScript truthiness of strings

    [if (s)], [!s] and [s || fallback] on a value of type [string | null]:
    [null], [undefined] and the empty string are falsy. *)

Module Js.
Definition truthy (s : string) : bool := negb (String.eqb s EmptyString).

Definition truthy_opt (o : option string) : bool :=
  match o with
  | Some s => truthy s
  | None => false
  end.

(** [o || fallback] *)
Definition or_else (o : option string) (fallback : string) : string :=
  match o with
  | Some s => if truthy s then s else fallback
  | None => fallback
  end.

Definition upper_char (c : ascii) : ascii :=
  let n := nat_of_ascii c in
  if ((97 <=? n) && (n <=? 122))%nat then ascii_of_nat (n - 32) else c.

(** [String.prototype.toUpperCase] on ASCII text. *)
Fixpoint toUpperCase (s : string) : string :=
  match s with
  | EmptyString => EmptyString
  | String c rest => String (upper_char c) (toUpperCase rest)
  end.

Definition lower_char (c : ascii) : ascii :=
  let n := nat_of_ascii c in
  if ((65 <=? n) && (n <=? 90))%nat then ascii_of_nat (n + 32) else c.

(** [String.prototype.toLowerCase] on ASCII text. *)
Fixpoint toLowerCase (s : string) : string :=
  match s with
  | EmptyString => EmptyString
  | String c rest => String (lower_char c) (toLowerCase rest)
  end.
End Js.

(** [ExportFormat] of types/api.types.ts, with the string each member
    stands for. *)
Module ExportFormat.
Inductive t := PNG | PDF | CSV | JPEG.

Definition value (f : t) : string :=
  match f with
  | PNG => "png"
  | PDF => "pdf"
  | CSV => "csv"
  | JPEG => "jpeg"
  end.
End ExportFormat.

(** [ChartResponse] of types/api.types.ts; [chart] is typed [any] and is
    stored as the chart data of the slice. *)
Module ChartResponse.
Record t := mk {
  chart : option ChartSlice.ChartAllData;
  config : ChartConfig.t;
  statistics_colors : ChartSlice.StatisticsColors;
}.
End ChartResponse.

(** ** store/slices/uiSlice.ts *)

Module UiSlice.
Record UiState := mkState {
  isExporting : bool;
  exportError : option string;
  globalError : option string;
  sidebarCollapsed : bool;
}.

Definition initialState : UiState :=
  {| isExporting := false; exportError := None;
     globalError := None; sidebarCollapsed := false |}.

Definition setIsExporting (state : UiState) (payload : bool) : UiState :=
  mkState payload (exportError state) (globalError state) (sidebarCollapsed state).

Definition setExportError (state : UiState) (payload : option string) : UiState :=
  mkState (isExporting state) payload (globalError state) (sidebarCollapsed state).

Definition setGlobalError (state : UiState) (payload : option string) : UiState :=
  mkState (isExporting state) (exportError state) payload (sidebarCollapsed state).

Definition toggleSidebar (state : UiState) : UiState :=
  mkState (isExporting state) (exportError state) (globalError state)
          (negb (sidebarCollapsed state)).

Definition clearErrors (state : UiState) : UiState :=
  mkState (isExporting state) None None (sidebarCollapsed state).

Inductive Action :=
| SetIsExporting (payload : bool)
| SetExportError (payload : option string)
| SetGlobalError (payload : option string)
| ToggleSidebar
| ClearErrors.

Definition reducer (state : UiState) (a : Action) : UiState :=
  match a with
  | SetIsExporting b => setIsExporting state b
  | SetExportError e => setExportError state e
  | SetGlobalError e => setGlobalError state e
  | ToggleSidebar => toggleSidebar state
  | ClearErrors => clearErrors state
  end.
End UiSlice.

(** ** The chart slice as a state machine *)

Module ChartMachine.
(** States of the chart slice the store can be in. *)
Inductive reachable : ChartSlice.ChartState -> Prop :=
| reachable_init : reachable ChartSlice.initialState
| reachable_step state a :
    reachable state -> reachable (ChartSlice.reducer state a).

Definition run (actions : list ChartSlice.Action) : ChartSlice.ChartState :=
  fold_left ChartSlice.reducer actions ChartSlice.initialState.

(** The actions that write [settings]. *)
Definition is_settings_action (a : ChartSlice.Action) : bool :=
  match a with
  | ChartSlice.UpdateSettings _ | ChartSlice.SetChartType _
  | ChartSlice.ToggleLegend | ChartSlice.ToggleDefinedPoints
  | ChartSlice.ToggleP10 | ChartSlice.ToggleP50 | ChartSlice.ToggleP90 => true
  | _ => false
  end.

(** [{ ...p, ...q }] on two partial settings. *)
Definition merge (p q : ChartSlice.PartialChartSettings)
  : ChartSlice.PartialChartSettings :=
  let pick {A} (a b : option A) := match b with Some _ => b | None => a end in
  ChartSlice.mkPartial
    (pick (ChartSlice.showLegend_opt p) (ChartSlice.showLegend_opt q))
    (pick (ChartSlice.showDefinedPoints_opt p) (ChartSlice.showDefinedPoints_opt q))
    (pick (ChartSlice.showP10_opt p) (ChartSlice.showP10_opt q))
    (pick (ChartSlice.showP50_opt p) (ChartSlice.showP50_opt q))
    (pick (ChartSlice.showP90_opt p) (ChartSlice.showP90_opt q))
    (pick (ChartSlice.chartType_opt p) (ChartSlice.chartType_opt q)).

Definition empty_partial : ChartSlice.PartialChartSettings :=
  ChartSlice.mkPartial None None None None None None.

(** The payload [{ flag: value }] with a single key. *)
Definition only_flag (f : ChartSlice.Flag) (b : bool)
  : ChartSlice.PartialChartSettings :=
  match f with
  | ChartSlice.FLegend => ChartSlice.mkPartial (Some b) None None None None None
  | ChartSlice.FDefinedPoints => ChartSlice.mkPartial None (Some b) None None None None
  | ChartSlice.FP10 => ChartSlice.mkPartial None None (Some b) None None None
  | ChartSlice.FP50 => ChartSlice.mkPartial None None None (Some b) None None
  | ChartSlice.FP90 => ChartSlice.mkPartial None None None None (Some b) None
  end.

Definition only_chartType (t : ChartType) : ChartSlice.PartialChartSettings :=
  ChartSlice.mkPartial None None None None None (Some t).
End ChartMachine.

(** ** store/index.ts

    [configureStore] with the three slice reducers: every dispatched action
    is offered to each slice.  An action of one slice is unknown to the
    other two, except [uploadFile.fulfilled], for which the chart slice
    registers a case of its own. *)

Module Store.
Record RootState := mk {
  session : SessionSlice.SessionState;
  chart : ChartSlice.ChartState;
  ui : UiSlice.UiState;
}.

Definition initialState : RootState :=
  mk SessionSlice.initialState ChartSlice.initialState UiSlice.initialState.

(** An action is tagged with the slice that creates it.  The constructor
    [ChartSlice.UploadFileFulfilled] is the chart slice's case for the
    thunk of the session slice: the store reaches it through
    [Session (SessionSlice.UploadFileFulfilled _ _)]. *)
Inductive Action :=
| Session (a : SessionSlice.Action)
| Chart (a : ChartSlice.Action)
| Ui (a : UiSlice.Action).

Definition reducer (st : RootState) (a : Action) : RootState :=
  mk (match a with
      | Session a' => SessionSlice.reducer (session st) a'
      | _ => session st
      end)
     (match a with
      | Chart a' => ChartSlice.reducer (chart st) a'
      | Session (SessionSlice.UploadFileFulfilled _ _) =>
          ChartSlice.reducer (chart st) ChartSlice.UploadFileFulfilled
      | _ => chart st
      end)
     (match a with
      | Ui a' => UiSlice.reducer (ui st) a'
      | _ => ui st
      end).

Definition dispatch_all (st : RootState) (actions : list Action) : RootState :=
  fold_left reducer actions st.

Inductive reachable : RootState -> Prop :=
| reachable_init : reachable initialState
| reachable_step st a : reachable st -> reachable (reducer st a).
End Store.

(** ** services/api.ts *)

Module ApiService.
(** What the response interceptor reads of an [AxiosError]: whether a
    response came back and, if so, its [data?.detail]; whether the request
    was sent; the message of the error. *)
Record AxiosError := mkError {
  response : option (option string);
  request : bool;
  message : string;
}.

(** The rejection handler of the response interceptor: the message of the
    [Error] it throws. *)
Definition interceptor (error : AxiosError) : string :=
  match response error with
  | Some detail => Js.or_else detail "An error occurred"
  | None =>
      if request error then "Network error. Please check your connection."
      else message error
  end.

(** An awaited call of the client: the data of the response, or the
    message of the error thrown by the interceptor. *)
Definition settle {T : Type} (outcome : AxiosError + T) : string + T :=
  match outcome with
  | inl error => inl (interceptor error)
  | inr data => inr data
  end.

(** The answers of the server to the requests of [ApiService]. *)
Record Server := mkServer {
  uploadCSV : File.t -> AxiosError + UploadResponse.t;
  getProcessedData : string -> AxiosError + ProcessedData.t;
  generateChart : ChartConfig.t -> AxiosError + ChartResponse.t;
  getChartPreview : string -> AxiosError + ChartResponse.t;
  exportData : string -> ExportFormat.t -> option Q -> option Q
               -> AxiosError + string;
  exportCSV : string -> AxiosError + string;
  exportHTML : string -> AxiosError + string;
  deleteSession : string -> AxiosError + unit;
}.
End ApiService.

(** ** The thunks of the session and chart slices

    [createAsyncThunk] dispatches [pending], runs the payload creator, and
    dispatches [fulfilled] with its result or [rejected] with the value
    given to [rejectWithValue].  A thunk is modelled with no other action
    dispatched while its request is in flight; it returns the new store
    state and what [unwrap()] yields. *)

Module Thunks.
Definition uploadFile_payload (srv : ApiService.Server) (file : File.t)
  : string + (UploadResponse.t * ProcessedData.t) :=
  match ApiService.settle (ApiService.uploadCSV srv file) with
  | inl msg => inl (Js.or_else (Some msg) "Failed to upload file")
  | inr uploadResponse =>
      match ApiService.settle
              (ApiService.getProcessedData srv
                 (UploadResponse.session_id uploadResponse)) with
      | inl msg => inl (Js.or_else (Some msg) "Failed to upload file")
      | inr processedData => inr (uploadResponse, processedData)
      end
  end.

Definition uploadFile (srv : ApiService.Server) (file : File.t)
    (st : Store.RootState)
  : Store.RootState * (string + (UploadResponse.t * ProcessedData.t)) :=
  let st1 := Store.reducer st (Store.Session SessionSlice.UploadFilePending) in
  let result := uploadFile_payload srv file in
  let settled :=
    match result with
    | inr (r, pd) => SessionSlice.UploadFileFulfilled r pd
    | inl msg => SessionSlice.UploadFileRejected (Some msg)
    end in
  (Store.reducer st1 (Store.Session settled), result).

Definition deleteSession_payload (srv : ApiService.Server) (sessionId : string)
  : string + string :=
  match ApiService.settle (ApiService.deleteSession srv sessionId) with
  | inl msg => inl (Js.or_else (Some msg) "Failed to delete session")
  | inr _ => inr sessionId
  end.

Definition deleteSession (srv : ApiService.Server) (sessionId : string)
    (st : Store.RootState) : Store.RootState * (string + string) :=
  let st1 := Store.reducer st (Store.Session SessionSlice.DeleteSessionPending) in
  let result := deleteSession_payload srv sessionId in
  let settled :=
    match result with
    | inr _ => SessionSlice.DeleteSessionFulfilled
    | inl _ => SessionSlice.DeleteSessionRejected
    end in
  (Store.reducer st1 (Store.Session settled), result).

(** The [ChartConfig] that [generateChart] sends: the settings of the chart
    slice and one [series_config] entry per stored series. *)
Definition generateChart_config (sessionId : string) (pd : ProcessedData.t)
    (settings : ChartSlice.ChartSettings) : ChartConfig.t :=
  ChartConfig.mk sessionId
    (ChartSlice.chartType settings)
    (ChartSlice.showLegend settings)
    (ChartSlice.showDefinedPoints settings)
    (ChartSlice.showP10 settings)
    (ChartSlice.showP50 settings)
    (ChartSlice.showP90 settings)
    (Some (map (fun s => SeriesConfig.mk (SeriesData.name s)
                                         (SeriesData.visible s)
                                         (SeriesData.color s))
               (ProcessedData.series pd))).

Definition FulfilledChart : Type :=
  option ChartSlice.ChartAllData * ChartConfig.t * ChartSlice.StatisticsColors.

(** The payload creator of [generateChart] on the state [getState()]
    returns. *)
Definition generateChart_payload (srv : ApiService.Server)
    (state : Store.RootState) : string + FulfilledChart :=
  match SessionSlice.sessionId (Store.session state),
        SessionSlice.processedData (Store.session state) with
  | Some sessionId, Some processedData =>
      if Js.truthy sessionId then
        let config :=
          generateChart_config sessionId processedData
            (ChartSlice.settings (Store.chart state)) in
        match ApiService.settle (ApiService.generateChart srv config) with
        | inl msg => inl (Js.or_else (Some msg) "Failed to generate chart")
        | inr response =>
            inr (ChartResponse.chart response, config,
                 ChartResponse.statistics_colors response)
        end
      else inl "No session data available"
  | _, _ => inl "No session data available"
  end.

Definition settle_chart (fulfilled : option ChartSlice.ChartAllData ->
                                     ChartConfig.t -> ChartSlice.StatisticsColors ->
                                     ChartSlice.Action)
    (rejected : option string -> ChartSlice.Action)
    (result : string + FulfilledChart) : ChartSlice.Action :=
  match result with
  | inr (cd, cfg, colors) => fulfilled cd cfg colors
  | inl msg => rejected (Some msg)
  end.

Definition generateChart (srv : ApiService.Server) (st : Store.RootState)
  : Store.RootState * (string + FulfilledChart) :=
  let st1 := Store.reducer st (Store.Chart ChartSlice.GenerateChartPending) in
  let result := generateChart_payload srv st1 in
  (Store.reducer st1
     (Store.Chart (settle_chart ChartSlice.GenerateChartFulfilled
                                ChartSlice.GenerateChartRejected result)),
   result).

Definition getChartPreview_payload (srv : ApiService.Server) (sessionId : string)
  : string + FulfilledChart :=
  match ApiService.settle (ApiService.getChartPreview srv sessionId) with
  | inl msg => inl (Js.or_else (Some msg) "Failed to get chart preview")
  | inr response =>
      inr (ChartResponse.chart response, ChartResponse.config response,
           ChartResponse.statistics_colors response)
  end.

Definition getChartPreview (srv : ApiService.Server) (sessionId : string)
    (st : Store.RootState) : Store.RootState * (string + FulfilledChart) :=
  let st1 := Store.reducer st (Store.Chart ChartSlice.GetChartPreviewPending) in
  let result := getChartPreview_payload srv sessionId in
  (Store.reducer st1
     (Store.Chart (settle_chart ChartSlice.GetChartPreviewFulfilled
                                ChartSlice.GetChartPreviewRejected result)),
   result).
End Thunks.

(** ** The hooks: hooks/useSession.ts, hooks/useChart.ts, hooks/useExport.ts

    A handler maps the store state to the state after its dispatches and
    lists what it shows or hands to the browser: the toasts of antd's
    [message] and the files given to [apiService.downloadFile]. *)

Module Hooks.
Inductive MessageKind := Success | Error | Info | Warning.

Inductive Effect :=
| Message (kind : MessageKind) (text : string)
| Download (blob : string) (filename : string).

Definition sessionId_of (st : Store.RootState) : option string :=
  SessionSlice.sessionId (Store.session st).

(** *** useSession *)

Definition handleUploadFile (srv : ApiService.Server) (file : File.t)
    (st : Store.RootState)
  : Store.RootState * list Effect
    * (string + (UploadResponse.t * ProcessedData.t)) :=
  let (st', result) := Thunks.uploadFile srv file st in
  match result with
  | inr (r, _) =>
      (st', [Message Success
               ("File uploaded: " +:+ UploadResponse.original_filename r)],
       result)
  | inl error =>
      (st', [Message Error (Js.or_else (Some error) "Failed to upload file")],
       result)
  end.

Definition handleDeleteSession (srv : ApiService.Server) (st : Store.RootState)
  : Store.RootState * list Effect :=
  match sessionId_of st with
  | Some sessionId =>
      if Js.truthy sessionId then
        let (st', result) := Thunks.deleteSession srv sessionId st in
        match result with
        | inr _ =>
            (Store.reducer st' (Store.Chart ChartSlice.ResetChart),
             [Message Success "Session reset successfully"])
        | inl error =>
            (st', [Message Error (Js.or_else (Some error) "Failed to reset session")])
        end
      else (st, [Message Warning "No active session to delete"])
  | None => (st, [Message Warning "No active session to delete"])
  end.

Definition handleResetSession (st : Store.RootState)
  : Store.RootState * list Effect :=
  (Store.dispatch_all st [Store.Session SessionSlice.ResetSession;
                          Store.Chart ChartSlice.ResetChart],
   [Message Info "Session cleared"]).

(** *** useChart *)

Definition handleGenerateChart (srv : ApiService.Server) (st : Store.RootState)
  : Store.RootState * list Effect :=
  if Js.truthy_opt (sessionId_of st) then
    let (st', result) := Thunks.generateChart srv st in
    match result with
    | inr _ => (st', [Message Success "Chart generated successfully"])
    | inl error =>
        (st', [Message Error (Js.or_else (Some error) "Failed to generate chart")])
    end
  else (st, [Message Error "No session available. Please upload a file first."]).

Definition handleGetPreview (srv : ApiService.Server) (sessionId : string)
    (st : Store.RootState) : Store.RootState * list Effect :=
  let (st', result) := Thunks.getChartPreview srv sessionId st in
  match result with
  | inr _ => (st', [Message Success "Preview loaded"])
  | inl error =>
      (st', [Message Error (Js.or_else (Some error) "Failed to load preview")])
  end.

(** *** useExport

    [now] is the decimal text of [Date.now()]. *)

Definition exportData (srv : ApiService.Server) (now : string)
    (format : ExportFormat.t) (width height : option Q) (st : Store.RootState)
  : Store.RootState * list Effect :=
  match sessionId_of st with
  | Some sessionId =>
      if Js.truthy sessionId then
        let st1 :=
          Store.dispatch_all st [Store.Ui (UiSlice.SetIsExporting true);
                                 Store.Ui (UiSlice.SetExportError None)] in
        match ApiService.settle
                (ApiService.exportData srv sessionId format width height) with
        | inr blob =>
            let extension := Js.toLowerCase (ExportFormat.value format) in
            let filename := "data_insights_" +:+ now +:+ "." +:+ extension in
            (Store.reducer st1 (Store.Ui (UiSlice.SetIsExporting false)),
             [Download blob filename;
              Message Success
                ("Exported as " +:+ Js.toUpperCase (ExportFormat.value format))])
        | inl msg =>
            let errorMessage := Js.or_else (Some msg) "Failed to export" in
            (Store.dispatch_all st1
               [Store.Ui (UiSlice.SetExportError (Some errorMessage));
                Store.Ui (UiSlice.SetIsExporting false)],
             [Message Error errorMessage])
        end
      else (st, [Message Error "No session available"])
  | None => (st, [Message Error "No session available"])
  end.

(** The common shape of [exportCSV] and [exportHTML]. *)
Definition export_blob (request : string -> ApiService.AxiosError + string)
    (filename successText failureText : string) (st : Store.RootState)
  : Store.RootState * list Effect :=
  match sessionId_of st with
  | Some sessionId =>
      if Js.truthy sessionId then
        let st1 := Store.reducer st (Store.Ui (UiSlice.SetIsExporting true)) in
        let st2 := Store.reducer st1 (Store.Ui (UiSlice.SetIsExporting false)) in
        match ApiService.settle (request sessionId) with
        | inr blob => (st2, [Download blob filename; Message Success successText])
        | inl msg => (st2, [Message Error (Js.or_else (Some msg) failureText)])
        end
      else (st, [Message Error "No session available"])
  | None => (st, [Message Error "No session available"])
  end.

Definition exportCSV (srv : ApiService.Server) (now : string)
    (st : Store.RootState) : Store.RootState * list Effect :=
  export_blob (ApiService.exportCSV srv)
              ("data_insights_" +:+ now +:+ ".csv")
              "Exported as CSV" "Failed to export CSV" st.

Definition exportHTML (srv : ApiService.Server) (now : string)
    (st : Store.RootState) : Store.RootState * list Effect :=
  export_blob (ApiService.exportHTML srv)
              ("chart_" +:+ now +:+ ".html")
              "Exported as HTML" "Failed to export HTML" st.
End Hooks.

(** ** components/Chart/ChartViewer.tsx, components/Toolbar/Toolbar.tsx and
    the render branch of components/Upload/FileUploader.tsx *)

Module ChartViewer.
Record ChartInfo := mkInfo {
  visibleSeries : nat;
  totalSeries : nat;
}.

Definition count_visible (l : list SeriesData.t) : nat :=
  length (List.filter SeriesData.visible l).

(** The memoised [chartInfo]. *)
Definition chartInfo (st : Store.RootState) : option ChartInfo :=
  match ChartSlice.chartData (Store.chart st),
        SessionSlice.processedData (Store.session st) with
  | Some _, Some pd =>
      Some (mkInfo (count_visible (ProcessedData.series pd))
                   (length (ProcessedData.series pd)))
  | _, _ => None
  end.

(** The condition of the effect that generates the chart once data is
    loaded; [last] is [lastGeneratedSessionRef.current]. *)
Definition shouldGenerate (st : Store.RootState) (last : option string) : bool :=
  match SessionSlice.processedData (Store.session st),
        ChartSlice.chartData (Store.chart st),
        SessionSlice.sessionId (Store.session st) with
  | Some _, None, Some sessionId =>
      negb (ChartSlice.isGenerating (Store.chart st))
      && Js.truthy sessionId
      && negb (bool_decide (last = Some sessionId))
  | _, _, _ => false
  end.

(** The effect itself: it records the session in the ref and calls the
    handler of [useChart]. *)
Definition autoGenerate (srv : ApiService.Server) (st : Store.RootState)
    (last : option string)
  : Store.RootState * list Hooks.Effect * option string :=
  if shouldGenerate st last
  then (Hooks.handleGenerateChart srv st, SessionSlice.sessionId (Store.session st))
  else (st, [], last).

(** The session ids for which the effect fires when one mounted viewer,
    whose ref starts at [last], runs it on the store states [renders] one
    after the other.  The ref is threaded from each run to the next; the
    states are whatever the store holds at each run. *)
Fixpoint firings (srv : ApiService.Server) (last : option string)
    (renders : list Store.RootState) : list string :=
  match renders with
  | [] => []
  | st :: rest =>
      let last' := snd (autoGenerate srv st last) in
      (if shouldGenerate st last then option_list last' else [])
      ++ firings srv last' rest
  end.

(** What the component renders: the spinner, the error alert, the empty
    placeholder (with the hint chosen by the presence of data) or the plot
    with its info line. *)
Inductive View :=
| Loading
| Failure (text : string)
| Empty (hasData : bool)
| Plot (data : ChartSlice.ChartAllData) (info : option ChartInfo).

Definition view (st : Store.RootState) : View :=
  let c := Store.chart st in
  if ChartSlice.isGenerating c then Loading
  else if Js.truthy_opt (ChartSlice.generateError c)
  then Failure (default EmptyString (ChartSlice.generateError c))
  else match ChartSlice.chartData c with
       | None =>
           Empty (bool_decide
                    (is_Some (SessionSlice.processedData (Store.session st))))
       | Some cd => Plot cd (chartInfo st)
       end.
End ChartViewer.

Module Toolbar.
Definition isDisabled (st : Store.RootState) : bool :=
  negb (bool_decide (is_Some (SessionSlice.processedData (Store.session st))))
  || ChartSlice.isGenerating (Store.chart st).
End Toolbar.

Module FileUploaderView.
(** The two panels of the uploader: the status of the loaded file with the
    "Upload New File" button, or the drop zone followed by the upload error
    when there is one. *)
Inductive Panel :=
| Status (filename : string) (seriesCount : nat) (buttonDisabled : bool)
| Dragger (disabled : bool) (error : option string).

Definition render (st : Store.RootState) : Panel :=
  let s := Store.session st in
  match SessionSlice.processedData s with
  | Some pd =>
      Status (ProcessedData.original_filename pd)
             (length (ProcessedData.series pd))
             (SessionSlice.isUploading s)
  | None =>
      Dragger (SessionSlice.isUploading s)
              (if Js.truthy_opt (SessionSlice.uploadError s)
               then SessionSlice.uploadError s else None)
  end.
End FileUploaderView.

(** ** Observations of the session state used in the statements *)

Module SessionObs.
(** The names of the stored series, in order. *)
Definition series_names (state : SessionSlice.SessionState) : option (list string) :=
  match SessionSlice.processedData state with
  | Some pd => Some (map SeriesData.name (ProcessedData.series pd))
  | None => None
  end.

Definition stored_series (state : SessionSlice.SessionState) : list SeriesData.t :=
  match SessionSlice.processedData state with
  | Some pd => ProcessedData.series pd
  | None => []
  end.

Definition bool_to_nat (b : bool) : nat := if b then 1 else 0.

(** The common shape of [updateSeriesVisibility] and [updateSeriesColor]:
    [f] is the assignment made to the series found. *)
Definition update_with (f : SeriesData.t -> SeriesData.t)
    (state : SessionSlice.SessionState) (seriesName : string)
  : SessionSlice.SessionState :=
  match SessionSlice.processedData state with
  | Some pd =>
      match SessionSlice.find_series seriesName (ProcessedData.series pd) with
      | Some (i, series) =>
          SessionSlice.mkState (SessionSlice.sessionId state)
            (Some (ProcessedData.set_series
                     (<[i := f series]> (ProcessedData.series pd)) pd))
            (SessionSlice.isUploading state) (SessionSlice.uploadError state)
      | None => state
      end
  | None => state
  end.
End SessionObs.

(** ** Sample inputs

    Concrete values on which the statements below are exercised: a file
    handle, a cell parser for unsigned integers, a month of 30 days with
    rounding half up, and the CSV text of the scenario of the specification
    with the two series it yields. *)

Module Samples.
Definition sample_csv_file : File.t := File.mk "text/csv" "series.csv" 2048.

Fixpoint parse_digits (acc : Z) (s : string) : option Z :=
  match s with
  | EmptyString => Some acc
  | String c rest =>
      let d := (Z.of_nat (nat_of_ascii c) - 48)%Z in
      if ((0 <=? d) && (d <=? 9))%Z then parse_digits (10 * acc + d) rest
      else None
  end.

Definition parse_unsigned (s : string) : option Q :=
  match s with
  | EmptyString => None
  | _ => inject_Z <$> parse_digits 0 s
  end.

Definition round_half_up (q : Q) : Z := Qfloor (q + (1 # 2))%Q.

Definition unlines (ls : list string) : string :=
  fold_right (fun l acc => l +:+ String Pipeline.newline acc) EmptyString ls.

Definition sample_csv_text : string :=
  unlines ["MonthA,ValA,MonthB,ValB"; "0,10,0,20"; "1,,1,30"; "2,15,2,"].

Definition sample_ingest : string -> Pipeline.ValidationError + list SeriesData.t :=
  Pipeline.ingest parse_unsigned 30 round_half_up.

Definition ValA : SeriesData.t :=
  SeriesData.mk "ValA" [0; 30; 60]%Z [Some 10%Q; None; Some 15%Q]
                [true; false; true] None true.

Definition ValB : SeriesData.t :=
  SeriesData.mk "ValB" [0; 30; 60]%Z [Some 20%Q; Some 30%Q; None]
                [true; true; false] None true.

Definition sample_data : ProcessedData.t :=
  Pipeline.process "s-1" "series.csv" "2025-01-01T00:00:00" [ValA; ValB].

Definition sample_state : SessionSlice.SessionState :=
  SessionSlice.mkState (Some "s-1") (Some sample_data) false None.

Definition sample_theme : ChartSpecBuilder.Theme :=
  ChartSpecBuilder.mkTheme ["#1f77b4"; "#ff7f0e"; "#2ca02c"]
    "#d62728" "#9467bd" "#8c564b" "#7f7f7f"
    (fun ct => match ct with LINE => "Line chart" | CUMULATIVE => "Cumulative chart" end)
    "Days" "Value" 1200 800.

Definition sample_config : ChartConfig.t :=
  ChartConfig.mk "s-1" CUMULATIVE true false true false false
    (Some [SeriesConfig.mk "ValB" true (Some "#000000")]).
End Samples.

Module MoreSamples.
Definition sample_chart : ChartSlice.ChartAllData :=
  ChartSlice.mkChartAllData []
    (ChartSlice.mkChartLayout 800 1200 ChartSlice.HoverClosest ∅ ∅ ∅).

(** A store with the sample session loaded and a chart on display. *)
Definition loaded_store : Store.RootState :=
  Store.mk Samples.sample_state
           (ChartSlice.mkState (Some sample_chart) None
              (ChartSlice.settings ChartSlice.initialState) None false None)
           UiSlice.initialState.

Definition sample_colors : ChartSlice.StatisticsColors :=
  ChartSlice.mkColors "#d62728" "#9467bd" "#8c564b".

(** A server that accepts every request, and one that is unreachable. *)
Definition friendly_server : ApiService.Server :=
  ApiService.mkServer
    (fun _ => inr (UploadResponse.mk "s-1" "ok" 2 3 "series.csv"))
    (fun _ => inr Samples.sample_data)
    (fun cfg => inr (ChartResponse.mk (Some sample_chart) cfg sample_colors))
    (fun _ => inr (ChartResponse.mk (Some sample_chart) Samples.sample_config
                                    sample_colors))
    (fun _ _ _ _ => inr "blob")
    (fun _ => inr "x,y")
    (fun _ => inr "<html></html>")
    (fun _ => inr tt).

Definition network_down : ApiService.AxiosError :=
  ApiService.mkError None true "timeout of 30000ms exceeded".

Definition unreachable_server : ApiService.Server :=
  ApiService.mkServer
    (fun _ => inl network_down) (fun _ => inl network_down)
    (fun _ => inl network_down) (fun _ => inl network_down)
    (fun _ _ _ _ => inl network_down) (fun _ => inl network_down)
    (fun _ => inl network_down) (fun _ => inl network_down).

(** The loaded store without a chart on display, and the same store after
    the session id has been replaced. *)
Definition awaiting_chart : Store.RootState :=
  Store.reducer loaded_store (Store.Chart ChartSlice.ResetChart).

Definition other_session : Store.RootState :=
  Store.reducer awaiting_chart
    (Store.Session (SessionSlice.SetSessionId (Some "s-2"))).
End MoreSamples.

(** * Properties of the client *)

(** ** The endpoint table *)

Section Endpoints.
Import Config.

(** C7.  Under the versioned prefix "/api/v1", every entry of
    [API_ENDPOINTS] is the path of the REST table with the session
    identifier substituted for [{session_id}]. *)
Theorem api_endpoints_paths (s : string) :
  UPLOAD = "/api/v1/upload/"
  /\ DATA s = "/api/v1/data/" +:+ s
  /\ CHART_GENERATE = "/api/v1/chart/generate"
  /\ CHART_PREVIEW s = "/api/v1/chart/preview/" +:+ s
  /\ EXPORT s = "/api/v1/export/" +:+ s
  /\ EXPORT_CSV s = "/api/v1/export/csv/" +:+ s
  /\ EXPORT_HTML s = "/api/v1/export/html/" +:+ s
  /\ SESSION_DELETE s = "/api/v1/session/" +:+ s
  /\ SESSION_STATUS s = "/api/v1/session/" +:+ s +:+ "/status".
Proof.
  unfold UPLOAD, DATA, CHART_GENERATE, CHART_PREVIEW, EXPORT, EXPORT_CSV,
    EXPORT_HTML, SESSION_DELETE, SESSION_STATUS, API_VERSION.
  repeat split; reflexivity.
Qed.
End Endpoints.

(** ** The upload gate *)

Section UploadGate.
Import FileUploader.

Lemma Qltb_lt (x y : Q) : Qltb x y = true <-> (x < y)%Q.
Proof.
  unfold Qltb. rewrite negb_true_iff.
  destruct (Qle_bool y x) eqn:E.
  - apply Qle_bool_iff in E. split; [discriminate | intros H; exfalso; lra].
  - split; [intros _ | reflexivity].
    destruct (Qlt_le_dec x y) as [H | H]; [exact H |].
    apply Qle_bool_iff in H. congruence.
Qed.

(** The size test of the gate, on byte counts. *)
Lemma isLt50M_bytes (n : N) :
  Qltb (inject_Z (Z.of_N n) / 1024 / 1024) 50 = true
  <-> (n < 50 * 1024 * 1024)%N.
Proof.
  rewrite Qltb_lt.
  unfold Qlt, Qdiv, Qmult, Qinv, inject_Z. simpl.
  lia.
Qed.

Lemma append_nil_l (t : string) : "" +:+ t = t.
Proof. reflexivity. Qed.

Lemma append_cons (c : ascii) (s t : string) :
  String c s +:+ t = String c (s +:+ t).
Proof. reflexivity. Qed.

Lemma substring_whole (t : string) :
  String.substring 0 (String.length t) t = t.
Proof. induction t as [| d t IHt]; simpl; [reflexivity | now rewrite IHt]. Qed.

Lemma string_length_append (p t : string) :
  String.length (p +:+ t) = (String.length p + String.length t)%nat.
Proof.
  induction p as [| c p IH]; [reflexivity |].
  rewrite append_cons. simpl. now rewrite IH.
Qed.

Lemma substring_append_suffix (p t : string) :
  String.substring (String.length p) (String.length t) (p +:+ t) = t.
Proof.
  induction p as [| c p IH].
  - rewrite append_nil_l. apply substring_whole.
  - rewrite append_cons. simpl. exact IH.
Qed.

Lemma substring_split (s : string) (m : nat) :
  (m <= String.length s)%nat ->
  s = String.substring 0 m s +:+ String.substring m (String.length s - m) s.
Proof.
  revert m. induction s as [| c s IH]; intros m Hm.
  - destruct m; [reflexivity | simpl in Hm; lia].
  - destruct m as [| m].
    + simpl. rewrite append_nil_l, substring_whole. reflexivity.
    + simpl in *. rewrite append_cons. f_equal. apply IH. lia.
Qed.

(** [endsWith] holds exactly of the strings that are some prefix followed
    by the searched text. *)
Lemma endsWith_spec (s t : string) :
  endsWith s t = true <-> exists p, s = p +:+ t.
Proof.
  unfold endsWith. split.
  - remember (String.length t) as k eqn:Ek.
    destruct (k <=? String.length s)%nat eqn:E; [| discriminate].
    apply Nat.leb_le in E. intros H. apply bool_decide_eq_true in H.
    exists (String.substring 0 (String.length s - k) s).
    rewrite <- H.
    pose proof (substring_split s (String.length s - k)) as Hs.
    replace (String.length s - (String.length s - k))%nat with k in Hs by lia.
    apply Hs. lia.
  - intros [p ->].
    rewrite string_length_append.
    replace (String.length t <=? String.length p + String.length t)%nat
      with true by (symmetry; apply Nat.leb_le; lia).
    apply bool_decide_eq_true.
    replace (String.length p + String.length t - String.length t)%nat
      with (String.length p) by lia.
    apply substring_append_suffix.
Qed.

Lemma isCSV_spec (file : File.t) :
  bool_decide (File.type file = "text/csv") || endsWith (File.name file) ".csv"
  = true
  <-> (File.type file = "text/csv" \/ exists p, File.name file = p +:+ ".csv").
Proof. now rewrite orb_true_iff, bool_decide_eq_true, endsWith_spec. Qed.

(** C8.  The gate refuses every file of at least 50*1024*1024 bytes and
    every file that is neither of type "text/csv" nor named "*.csv"; it
    accepts every CSV file strictly below that size. *)
Theorem beforeUpload_gate (file : File.t) :
  ((50 * 1024 * 1024 <= File.size file)%N -> fst (beforeUpload file) = false)
  /\ (File.type file <> "text/csv" ->
      (~ exists p, File.name file = p +:+ ".csv") ->
      fst (beforeUpload file) = false)
  /\ ((File.type file = "text/csv" \/ exists p, File.name file = p +:+ ".csv") ->
      (File.size file < 50 * 1024 * 1024)%N ->
      fst (beforeUpload file) = true).
Proof.
  unfold beforeUpload.
  destruct (bool_decide _ || endsWith _ _) eqn:Ecsv; simpl.
  - destruct (Qltb _ 50) eqn:Elt; simpl.
    + apply isLt50M_bytes in Elt. apply isCSV_spec in Ecsv.
      split; [intros H; lia |].
      split; [| reflexivity].
      intros Hty Hname. destruct Ecsv; [congruence | contradiction].
    + split; [reflexivity |]. split; [reflexivity |].
      intros _ H. apply isLt50M_bytes in H. congruence.
  - split; [reflexivity |]. split; [reflexivity |].
    intros H _. apply isCSV_spec in H. congruence.
Qed.

(** The gate raises a message exactly when it refuses. *)
Lemma beforeUpload_message (file : File.t) :
  fst (beforeUpload file) = true <-> snd (beforeUpload file) = [].
Proof.
  unfold beforeUpload.
  destruct (negb _); simpl; [split; discriminate |].
  destruct (negb _); simpl; [split; discriminate | split; reflexivity].
Qed.

Lemma beforeUpload_gate_witness : fst (beforeUpload Samples.sample_csv_file) = true.
Proof.
  apply (proj2 (proj2 (beforeUpload_gate Samples.sample_csv_file))).
  - left. reflexivity.
  - reflexivity.
Defined.
End UploadGate.

(** ** The session slice *)

Section SessionSliceFacts.
Import SessionSlice.

Lemma find_series_None (seriesName : string) (l : list SeriesData.t) :
  (forall s, In s l -> SeriesData.name s <> seriesName) ->
  find_series seriesName l = None.
Proof.
  intros H. unfold find_series. apply list_find_None.
  apply Forall_forall. intros s Hs. apply H.
  now apply list_elem_of_In.
Qed.

Lemma find_series_Some (seriesName : string) (l : list SeriesData.t) :
  (exists s, In s l /\ SeriesData.name s = seriesName) ->
  exists i s, find_series seriesName l = Some (i, s)
              /\ l !! i = Some s /\ SeriesData.name s = seriesName.
Proof.
  intros (s & Hin & Hname). unfold find_series.
  destruct (list_find _ l) as [[i s'] |] eqn:E.
  - exists i, s'. apply list_find_Some in E as (Hl & Hp & _). auto.
  - exfalso. apply list_find_None in E.
    rewrite Forall_forall in E. apply (E s); [| exact Hname].
    now apply list_elem_of_In.
Qed.

(** C5.  An update of the visibility or of the colour of a series whose
    name is not among the stored series leaves the state as it was. *)
Theorem update_unknown_series_noop (state : SessionState) (seriesName : string) :
  (forall pd s, processedData state = Some pd ->
                In s (ProcessedData.series pd) ->
                SeriesData.name s <> seriesName) ->
  (forall visible, reducer state (UpdateSeriesVisibility seriesName visible) = state)
  /\ (forall color, reducer state (UpdateSeriesColor seriesName color) = state).
Proof.
  intros H. simpl. unfold updateSeriesVisibility, updateSeriesColor.
  destruct (processedData state) as [pd |] eqn:Epd; [| split; reflexivity].
  rewrite find_series_None by (intros s Hs; exact (H pd s eq_refl Hs)).
  split; reflexivity.
Qed.

Lemma update_unknown_series_noop_witness :
  reducer Samples.sample_state (UpdateSeriesVisibility "ValC" false)
  = Samples.sample_state.
Proof.
  apply (update_unknown_series_noop Samples.sample_state "ValC").
  intros pd s Hpd Hs. injection Hpd as <-.
  simpl in Hs. destruct Hs as [<- | [<- | []]]; discriminate.
Defined.

Lemma set_visible_frame (v : bool) (s : SeriesData.t) :
  same_but_visible s (SeriesData.set_visible v s)
  /\ SeriesData.visible (SeriesData.set_visible v s) = v.
Proof. unfold same_but_visible. simpl. tauto. Qed.

Lemma set_color_frame (c : string) (s : SeriesData.t) :
  same_but_color s (SeriesData.set_color c s)
  /\ SeriesData.color (SeriesData.set_color c s) = Some c.
Proof. unfold same_but_color. simpl. tauto. Qed.

Lemma insert_same_series_but (i : nat) (s' : SeriesData.t)
    (l : list SeriesData.t) :
  same_series_but i l (<[i := s']> l).
Proof.
  split; [apply length_insert |].
  intros j Hj. apply list_lookup_insert_ne. congruence.
Qed.

(** C6.  An update naming a stored series writes one field of one series:
    the first series of that name gets the new [visible] (respectively
    [color]); the rest of that series, every other series, the other fields
    of the data (statistics included) and of the state are as before. *)
Theorem update_series_frame (state : SessionState) (pd : ProcessedData.t)
    (seriesName : string) :
  processedData state = Some pd ->
  (exists s, In s (ProcessedData.series pd) /\ SeriesData.name s = seriesName) ->
  exists i s,
    ProcessedData.series pd !! i = Some s
    /\ SeriesData.name s = seriesName
    /\ (forall visible,
          let state' := reducer state (UpdateSeriesVisibility seriesName visible) in
          same_outside_data state state'
          /\ exists pd' s',
               processedData state' = Some pd'
               /\ same_outside_series pd pd'
               /\ same_series_but i (ProcessedData.series pd) (ProcessedData.series pd')
               /\ ProcessedData.series pd' !! i = Some s'
               /\ same_but_visible s s'
               /\ SeriesData.visible s' = visible)
    /\ (forall color,
          let state' := reducer state (UpdateSeriesColor seriesName color) in
          same_outside_data state state'
          /\ exists pd' s',
               processedData state' = Some pd'
               /\ same_outside_series pd pd'
               /\ same_series_but i (ProcessedData.series pd) (ProcessedData.series pd')
               /\ ProcessedData.series pd' !! i = Some s'
               /\ same_but_color s s'
               /\ SeriesData.color s' = Some color).
Proof.
  intros Hpd Hex.
  destruct (find_series_Some seriesName _ Hex) as (i & s & Hfind & Hi & Hname).
  assert (Hlt : (i < length (ProcessedData.series pd))%nat)
    by (eapply lookup_lt_Some; exact Hi).
  exists i, s. split; [exact Hi |]. split; [exact Hname |].
  split.
  - intros v. simpl. unfold updateSeriesVisibility. rewrite Hpd, Hfind.
    split; [repeat split |].
    eexists _, (SeriesData.set_visible v s). simpl.
    split; [reflexivity |]. split; [repeat split |].
    split; [apply insert_same_series_but |].
    split; [now apply list_lookup_insert_eq |].
    apply set_visible_frame.
  - intros c. simpl. unfold updateSeriesColor. rewrite Hpd, Hfind.
    split; [repeat split |].
    eexists _, (SeriesData.set_color c s). simpl.
    split; [reflexivity |]. split; [repeat split |].
    split; [apply insert_same_series_but |].
    split; [now apply list_lookup_insert_eq |].
    apply set_color_frame.
Qed.

Lemma update_series_frame_witness :
  exists i s,
    ProcessedData.series Samples.sample_data !! i = Some s
    /\ SeriesData.name s = "ValB"
    /\ (forall visible,
          let state' :=
            reducer Samples.sample_state (UpdateSeriesVisibility "ValB" visible) in
          same_outside_data Samples.sample_state state'
          /\ exists pd' s',
               processedData state' = Some pd'
               /\ same_outside_series Samples.sample_data pd'
               /\ same_series_but i (ProcessedData.series Samples.sample_data)
                                  (ProcessedData.series pd')
               /\ ProcessedData.series pd' !! i = Some s'
               /\ same_but_visible s s'
               /\ SeriesData.visible s' = visible)
    /\ (forall color,
          let state' :=
            reducer Samples.sample_state (UpdateSeriesColor "ValB" color) in
          same_outside_data Samples.sample_state state'
          /\ exists pd' s',
               processedData state' = Some pd'
               /\ same_outside_series Samples.sample_data pd'
               /\ same_series_but i (ProcessedData.series Samples.sample_data)
                                  (ProcessedData.series pd')
               /\ ProcessedData.series pd' !! i = Some s'
               /\ same_but_color s s'
               /\ SeriesData.color s' = Some color).
Proof.
  apply (update_series_frame Samples.sample_state Samples.sample_data "ValB").
  - reflexivity.
  - exists Samples.ValB. split; [simpl; auto | reflexivity].
Defined.

(** With two series of one name, the first one is written. *)
Example update_first_of_duplicates :
  let twice := ProcessedData.set_series [Samples.ValA; Samples.ValA] Samples.sample_data in
  let state := mkState None (Some twice) false None in
  (ProcessedData.series <$> processedData (updateSeriesVisibility state "ValA" false))
  = Some [SeriesData.set_visible false Samples.ValA; Samples.ValA].
Proof. reflexivity. Qed.

(** Every action preserves "while uploading there is no upload error". *)
Lemma reducer_preserves_uploading_invariant (state : SessionState) (a : Action) :
  (isUploading state = true -> uploadError state = None) ->
  isUploading (reducer state a) = true -> uploadError (reducer state a) = None.
Proof.
  intros Hinv.
  destruct a; simpl; try exact Hinv; try reflexivity; try discriminate.
  - unfold updateSeriesVisibility.
    destruct (processedData state) as [pd |]; [| exact Hinv].
    destruct (find_series _ _) as [[i s] |]; [exact Hinv | exact Hinv].
  - unfold updateSeriesColor.
    destruct (processedData state) as [pd |]; [| exact Hinv].
    destruct (find_series _ _) as [[i s] |]; [exact Hinv | exact Hinv].
Qed.

Lemma run_reachable (actions : list Action) : reachable (run actions).
Proof.
  unfold run.
  induction actions as [| a actions IH] using rev_ind; simpl.
  - apply reachable_init.
  - rewrite fold_left_app. simpl. now apply reachable_step.
Qed.

Lemma reachable_run (state : SessionState) :
  reachable state -> exists actions, state = run actions.
Proof.
  induction 1 as [| state a _ [actions ->]].
  - exists []. reflexivity.
  - exists (actions ++ [a])%list. unfold run. now rewrite fold_left_app.
Qed.

(** C10.  In every state of the session slice reachable from the initial
    state by its actions, an upload in progress implies that no upload
    error is recorded. *)
Theorem uploading_implies_no_error (state : SessionState) :
  reachable state -> isUploading state = true -> uploadError state = None.
Proof.
  induction 1 as [| state a Hreach IH].
  - discriminate.
  - now apply reducer_preserves_uploading_invariant.
Qed.

Lemma uploading_implies_no_error_witness :
  uploadError (run [UploadFileRejected (Some "Network error"); UploadFilePending])
  = None.
Proof.
  apply uploading_implies_no_error.
  - apply run_reachable.
  - reflexivity.
Defined.
End SessionSliceFacts.

(** ** The chart slice *)

Section ChartSliceFacts.
Import ChartSlice.

(** C9.  Each toggle is an involution on the chart state, negates its own
    flag, and leaves the four other flags, the chart type and every other
    field of the chart state as they were. *)
Theorem toggle_involution_frame (f : Flag) (state : ChartState) :
  let state' := reducer state (toggle f) in
  reducer state' (toggle f) = state
  /\ (forall g, flag g (settings state')
                = if Flag_eqb g f then negb (flag g (settings state))
                  else flag g (settings state))
  /\ chartType (settings state') = chartType (settings state)
  /\ chartData state' = chartData state
  /\ chartConfig state' = chartConfig state
  /\ statisticsColors state' = statisticsColors state
  /\ isGenerating state' = isGenerating state
  /\ generateError state' = generateError state.
Proof.
  destruct state as [cd cfg [l d a b c t] col g e].
  destruct f; simpl;
    (split; [ unfold toggleLegend, toggleDefinedPoints, toggleP10, toggleP50,
                toggleP90, set_settings; simpl; now rewrite negb_involutive
            | split; [intros []; reflexivity | repeat split] ]).
Qed.
End ChartSliceFacts.

(** * Properties of the pipeline *)

(** ** Statistics *)

Section StatisticsFacts.
Import Pipeline.

Lemma insert_sorted_Forall (P : Q -> Prop) (v : Q) (l : list Q) :
  P v -> Forall P l -> Forall P (insert_sorted v l).
Proof.
  intros Hv Hl. induction Hl as [| w l Hw Hl IH]; simpl.
  - constructor; [exact Hv | constructor].
  - destruct (Qle_bool v w); repeat constructor; assumption.
Qed.

Lemma insert_sorted_sorted (v : Q) (l : list Q) :
  StronglySorted Qle l -> StronglySorted Qle (insert_sorted v l).
Proof.
  induction 1 as [| w l Hs IH Hall]; simpl.
  - repeat constructor.
  - destruct (Qle_bool v w) eqn:E.
    + apply Qle_bool_iff in E.
      constructor; [now constructor |].
      constructor; [exact E |].
      eapply List.Forall_impl; [| exact Hall].
      intros z Hz. simpl in Hz. lra.
    + constructor; [exact IH |].
      apply insert_sorted_Forall; [| exact Hall].
      destruct (Qlt_le_dec w v) as [H | H]; [lra |].
      apply Qle_bool_iff in H. congruence.
Qed.

Lemma sort_values_sorted (l : list Q) : StronglySorted Qle (sort_values l).
Proof.
  induction l as [| v l IH]; simpl; [constructor |].
  now apply insert_sorted_sorted.
Qed.

Lemma insert_sorted_length (v : Q) (l : list Q) :
  length (insert_sorted v l) = S (length l).
Proof.
  induction l as [| w l IH]; simpl; [reflexivity |].
  destruct (Qle_bool v w); simpl; congruence.
Qed.

Lemma sort_values_length (l : list Q) : length (sort_values l) = length l.
Proof.
  induction l as [| v l IH]; simpl; [reflexivity |].
  rewrite insert_sorted_length. congruence.
Qed.

(** In a sorted list, a later order statistic is at least an earlier one. *)
Lemma sorted_nth_le (l : list Q) :
  StronglySorted Qle l ->
  forall i j, (i <= j < length l)%nat -> (nth i l 0 <= nth j l 0)%Q.
Proof.
  induction 1 as [| w l Hs IH Hall]; intros i j Hij; simpl in *; [lia |].
  destruct i as [| i], j as [| j]; try lia.
  - lra.
  - rewrite List.Forall_forall in Hall. apply Hall. apply nth_In. lia.
  - apply IH. lia.
Qed.

Lemma Qfloor_range (n : Z) (h : Q) :
  (0 <= h)%Q -> (h <= inject_Z n)%Q -> (0 <= Qfloor h <= n)%Z.
Proof.
  intros H0 Hn. split.
  - rewrite <- (Qfloor_Z 0). now apply Qfloor_resp_le.
  - rewrite <- (Qfloor_Z n). now apply Qfloor_resp_le.
Qed.

Lemma Qfloor_frac (h : Q) :
  (0 <= h - inject_Z (Qfloor h))%Q /\ (h - inject_Z (Qfloor h) < 1)%Q.
Proof.
  pose proof (Qfloor_le h) as Hle.
  pose proof (Qlt_floor h) as Hlt.
  rewrite inject_Z_plus in Hlt.
  change (inject_Z 1) with 1%Q in Hlt.
  split; lra.
Qed.

(** The interpolated value lies between the two order statistics that
    bracket the fractional index. *)
Lemma interpolate_bounds (l : list Q) (h : Q) :
  StronglySorted Qle l ->
  (0 <= h)%Q -> (h <= inject_Z (Z.of_nat (length l) - 1))%Q ->
  (nth (Z.to_nat (Qfloor h)) l 0 <= interpolate l h)%Q
  /\ (interpolate l h
      <= nth (Z.to_nat (Z.min (Qfloor h + 1) (Z.of_nat (length l) - 1))) l 0)%Q.
Proof.
  intros Hs H0 Hn. unfold interpolate.
  destruct (Qfloor_range _ h H0 Hn) as [Hlo0 Hlo1].
  destruct (Qfloor_frac h) as [Hf0 Hf1].
  set (lo := Qfloor h) in *.
  set (hi := Z.min (lo + 1) (Z.of_nat (length l) - 1)).
  assert (Hab : (nth (Z.to_nat lo) l 0 <= nth (Z.to_nat hi) l 0)%Q).
  { apply sorted_nth_le; [exact Hs |]. unfold hi. lia. }
  set (a := nth (Z.to_nat lo) l 0%Q) in *.
  set (b := nth (Z.to_nat hi) l 0%Q) in *.
  set (frac := (h - inject_Z lo)%Q) in *.
  split; nra.
Qed.

(** The interpolated value does not decrease with the fractional index. *)
Lemma interpolate_mono (l : list Q) (h1 h2 : Q) :
  StronglySorted Qle l ->
  (0 <= h1)%Q -> (h1 <= h2)%Q -> (h2 <= inject_Z (Z.of_nat (length l) - 1))%Q ->
  (interpolate l h1 <= interpolate l h2)%Q.
Proof.
  intros Hs H0 H12 Hn.
  assert (H1n : (h1 <= inject_Z (Z.of_nat (length l) - 1))%Q) by lra.
  assert (H02 : (0 <= h2)%Q) by lra.
  pose proof (Qfloor_resp_le _ _ H12) as Hfl.
  destruct (Qfloor_range _ h1 H0 H1n) as [Ha0 Ha1].
  destruct (Qfloor_range _ h2 H02 Hn) as [Hb0 Hb1].
  destruct (Z.eq_dec (Qfloor h1) (Qfloor h2)) as [E | NE].
  - unfold interpolate. rewrite <- E.
    set (lo := Qfloor h1) in *.
    set (hi := Z.min (lo + 1) (Z.of_nat (length l) - 1)).
    assert (Hab : (nth (Z.to_nat lo) l 0 <= nth (Z.to_nat hi) l 0)%Q).
    { apply sorted_nth_le; [exact Hs |]. unfold hi. lia. }
    set (a := nth (Z.to_nat lo) l 0%Q) in *.
    set (b := nth (Z.to_nat hi) l 0%Q) in *.
    nra.
  - destruct (interpolate_bounds l h1 Hs H0 H1n) as [_ Hup].
    destruct (interpolate_bounds l h2 Hs H02 Hn) as [Hlow _].
    eapply Qle_trans; [exact Hup |].
    eapply Qle_trans; [| exact Hlow].
    apply sorted_nth_le; [exact Hs |]. lia.
Qed.

(** The percentile does not decrease with the rank. *)
Lemma percentile_mono (l : list Q) (p q x y : Q) :
  StronglySorted Qle l ->
  (0 <= p)%Q -> (p <= q)%Q -> (q <= 1)%Q ->
  percentile p l = Some x -> percentile q l = Some y -> (x <= y)%Q.
Proof.
  intros Hs Hp Hpq Hq Hx Hy.
  destruct l as [| v l]; [discriminate |].
  unfold percentile in Hx, Hy. injection Hx as <-. injection Hy as <-.
  assert (Hn : (0 <= inject_Z (Z.of_nat (length (v :: l)) - 1))%Q).
  { change 0%Q with (inject_Z 0). rewrite <- Zle_Qle. simpl length. lia. }
  apply interpolate_mono; [exact Hs | | | ];
    change (S (length l)) with (length (v :: l));
    set (m := inject_Z (Z.of_nat (length (v :: l)) - 1)) in *; nra.
Qed.

(** The percentile is defined exactly when there is data. *)
Lemma percentile_is_Some (p : Q) (l : list Q) :
  is_Some (percentile p l) <-> l <> [].
Proof.
  destruct l; simpl; split; intros H; try congruence; eauto.
  now destruct H.
Qed.

Lemma lookup_map_Some {A B : Type} (f : A -> B) (l : list A) (i : nat) (y : B) :
  map f l !! i = Some y -> exists x, l !! i = Some x /\ y = f x.
Proof.
  revert i. induction l as [| x l IH]; intros [| i] H; simpl in *;
    try discriminate.
  - injection H as <-. eauto.
  - now apply IH.
Qed.

(** C1.  In the statistics of a session, wherever the three percentiles
    are present at a point of the master timeline, p10 <= p50 <= p90. *)
Theorem statistics_ordered (session_id filename created_at : string)
    (ss : list SeriesData.t) (i : nat) (a b c : Q) :
  let st := ProcessedData.statistics (process session_id filename created_at ss) in
  StatisticsData.p10 st !! i = Some (Some a) ->
  StatisticsData.p50 st !! i = Some (Some b) ->
  StatisticsData.p90 st !! i = Some (Some c) ->
  (a <= b)%Q /\ (b <= c)%Q.
Proof.
  simpl. intros Ha Hb Hc.
  apply lookup_map_Some in Ha as (t & Ht & Ha).
  apply lookup_map_Some in Hb as (t' & Ht' & Hb).
  apply lookup_map_Some in Hc as (t'' & Ht'' & Hc).
  assert (t' = t) by congruence. assert (t'' = t) by congruence. subst t' t''.
  unfold percentile_at in Ha, Hb, Hc.
  pose proof (sort_values_sorted (collect t ss)) as Hs.
  split.
  - eapply (percentile_mono _ (1 # 10) (1 # 2)); eauto; lra.
  - eapply (percentile_mono _ (1 # 2) (9 # 10)); eauto; lra.
Qed.

Lemma statistics_ordered_witness :
  (110 # 10 <= 30 # 2)%Q /\ (30 # 2 <= 190 # 10)%Q.
Proof.
  apply (statistics_ordered "s-1" "series.csv" "2025-01-01T00:00:00"
           [Samples.ValA; Samples.ValB] 0 (110 # 10) (30 # 2) (190 # 10)).
  - reflexivity.
  - reflexivity.
  - reflexivity.
Defined.

(** The scenario of the specification: at day 0 both series are defined
    (10 and 20), at the second point only ValB (30), at the third only ValA
    (15). *)
Example scenario_statistics :
  let st := compute_statistics [Samples.ValA; Samples.ValB] in
  Forall2 (option_Forall2 Qeq) (StatisticsData.p10 st) [Some 11; Some 30; Some 15]%Q
  /\ Forall2 (option_Forall2 Qeq) (StatisticsData.p50 st) [Some 15; Some 30; Some 15]%Q
  /\ Forall2 (option_Forall2 Qeq) (StatisticsData.p90 st) [Some 19; Some 30; Some 15]%Q.
Proof. vm_compute. repeat split; repeat constructor. Qed.

(** With no defined value at a timeline point the three slots are empty. *)
Example no_data_no_statistics :
  compute_statistics
    [SeriesData.mk "ValA" [0]%Z [None] [false] None true]
  = StatisticsData.mk [None] [None] [None].
Proof. reflexivity. Qed.
End StatisticsFacts.

(** ** Ingestion and alignment *)

Section IngestFacts.
Import Pipeline.

Lemma insert_point_keys_Forall (P : Z -> Prop) (x : Z) (y : option Q)
    (l : list (Z * option Q)) :
  P x -> List.Forall P (map fst l) -> List.Forall P (map fst (insert_point x y l)).
Proof.
  intros Hx. induction l as [| [x' y'] l IH]; simpl; intros Hl.
  - constructor; [exact Hx | constructor].
  - inversion Hl as [| ? ? Hx' Hl']; subst.
    destruct (x <? x')%Z; [constructor; assumption |].
    destruct (x =? x')%Z; simpl; constructor; auto.
Qed.

(** Inserting a point keeps the day offsets strictly increasing. *)
Lemma insert_point_keys_sorted (x : Z) (y : option Q) (l : list (Z * option Q)) :
  StronglySorted Z.lt (map fst l) ->
  StronglySorted Z.lt (map fst (insert_point x y l)).
Proof.
  induction l as [| [x' y'] l IH]; simpl; intros Hs.
  - repeat constructor.
  - inversion Hs as [| ? ? Hs' Hall]; subst.
    destruct (x <? x')%Z eqn:Elt.
    + apply Z.ltb_lt in Elt. simpl.
      constructor; [exact Hs |].
      constructor; [exact Elt |].
      eapply List.Forall_impl; [| exact Hall]. intros z Hz. lia.
    + destruct (x =? x')%Z eqn:Eeq; simpl.
      * apply Z.eqb_eq in Eeq. subst x'. now constructor.
      * apply Z.ltb_ge in Elt. apply Z.eqb_neq in Eeq.
        constructor; [now apply IH |].
        apply insert_point_keys_Forall; [lia | exact Hall].
Qed.

Lemma strictly_increasing_NoDup (l : list Z) :
  StronglySorted Z.lt l -> NoDup l.
Proof.
  induction 1 as [| x l Hs IH Hall]; [constructor |].
  constructor; [| exact IH].
  intros Hin. apply list_elem_of_In in Hin.
  rewrite List.Forall_forall in Hall. specialize (Hall x Hin). lia.
Qed.

Section WithParameters.
Variable parse_number : string -> option Q.
Variable DAYS_PER_MONTH : Q.
Variable round : Q -> Z.

Lemma align_keys_sorted (pts : list (Q * option Q)) :
  StronglySorted Z.lt (map fst (align DAYS_PER_MONTH round pts)).
Proof.
  unfold align.
  assert (H : forall acc : list (Z * option Q),
             StronglySorted Z.lt (map fst acc) ->
             StronglySorted Z.lt
               (map fst (fold_left
                           (fun acc p =>
                              insert_point (to_days DAYS_PER_MONTH round (fst p))
                                           (snd p) acc) pts acc))).
  { induction pts as [| p pts IH]; intros acc Hacc; simpl; [exact Hacc |].
    apply IH. now apply insert_point_keys_sorted. }
  apply H. constructor.
Qed.

Lemma make_series_lengths (name : string) (pts : list (Z * option Q)) :
  let s := make_series name pts in
  length (SeriesData.x_values s) = length (SeriesData.y_values s)
  /\ length (SeriesData.y_values s) = length (SeriesData.count_stat s).
Proof. simpl. now rewrite !length_map. Qed.

(** A row whose Y cell is not numeric is kept as an undefined point: the
    mask is true exactly where a value is stored. *)
Lemma make_series_mask (name : string) (pts : list (Z * option Q)) :
  SeriesData.count_stat (make_series name pts)
  = map is_defined (SeriesData.y_values (make_series name pts)).
Proof. simpl. now rewrite map_map. Qed.

(** C4.  Every series of a successfully ingested CSV file has [x_values],
    [y_values] and [count_stat] of one length, and no day offset twice. *)
Theorem ingest_series_wellformed (csv : string) (ss : list SeriesData.t) :
  ingest parse_number DAYS_PER_MONTH round csv = inr ss ->
  List.Forall
    (fun s =>
       length (SeriesData.x_values s) = length (SeriesData.y_values s)
       /\ length (SeriesData.y_values s) = length (SeriesData.count_stat s)
       /\ NoDup (SeriesData.x_values s))
    ss.
Proof.
  unfold ingest.
  destruct (rows_of csv) as [| header body]; [discriminate |].
  destruct (pair_columns 0 header) as [cols |]; [| discriminate].
  destruct (existsb _ _); [| discriminate].
  intros H. injection H as <-.
  apply List.Forall_forall. intros s Hs.
  apply in_map_iff in Hs as (c & <- & _).
  pose proof (make_series_lengths (snd c)
                (align DAYS_PER_MONTH round (raw_points parse_number (fst c) body)))
    as [H1 H2].
  split; [exact H1 |]. split; [exact H2 |].
  apply strictly_increasing_NoDup. simpl. apply align_keys_sorted.
Qed.

(** The day offsets of an ingested series are strictly increasing. *)
Lemma ingest_series_increasing (csv : string) (ss : list SeriesData.t) :
  ingest parse_number DAYS_PER_MONTH round csv = inr ss ->
  List.Forall (fun s => StronglySorted Z.lt (SeriesData.x_values s)) ss.
Proof.
  unfold ingest.
  destruct (rows_of csv) as [| header body]; [discriminate |].
  destruct (pair_columns 0 header) as [cols |]; [| discriminate].
  destruct (existsb _ _); [| discriminate].
  intros H. injection H as <-.
  apply List.Forall_forall. intros s Hs.
  apply in_map_iff in Hs as (c & <- & _).
  simpl. apply align_keys_sorted.
Qed.
End WithParameters.

Lemma ingest_series_wellformed_witness :
  List.Forall
    (fun s =>
       length (SeriesData.x_values s) = length (SeriesData.y_values s)
       /\ length (SeriesData.y_values s) = length (SeriesData.count_stat s)
       /\ NoDup (SeriesData.x_values s))
    [Samples.ValA; Samples.ValB].
Proof.
  apply (ingest_series_wellformed Samples.parse_unsigned 30 Samples.round_half_up
           Samples.sample_csv_text).
  vm_compute. reflexivity.
Defined.

(** The three validation errors of the ingestor, and the collapse of two
    rows that fall on one day. *)
Example ingest_empty_file : Samples.sample_ingest "" = inl EmptyFile.
Proof. reflexivity. Qed.

Example ingest_unpaired_column :
  Samples.sample_ingest (Samples.unlines ["MonthA,ValA,MonthB"; "0,10,0"])
  = inl UnpairedColumn.
Proof. reflexivity. Qed.

Example ingest_no_numeric_value :
  Samples.sample_ingest (Samples.unlines ["MonthA,ValA"; "0,"; "1,n/a"])
  = inl NoNumericData.
Proof. reflexivity. Qed.

Example ingest_last_write_wins :
  Samples.sample_ingest (Samples.unlines ["MonthA,ValA"; "1,5"; "0,7"; "1,9"])
  = inr [SeriesData.mk "ValA" [0; 30]%Z [Some 7%Q; Some 9%Q] [true; true]
                       None true].
Proof. reflexivity. Qed.
End IngestFacts.

(** ** The chart descriptor *)

Section ChartSpecBuilderFacts.
Import ChartSpecBuilder.

Lemma lookup_map {A B : Type} (f : A -> B) (l : list A) (i : nat) :
  map f l !! i = f <$> l !! i.
Proof.
  revert i. induction l as [| a l IH]; intros [| i]; simpl; auto.
Qed.

Lemma running_sum_length (acc : Q) (ys : list (option Q)) :
  length (running_sum acc ys) = length ys.
Proof.
  revert acc. induction ys as [| y ys IH]; intros acc; simpl;
    [reflexivity | now rewrite IH].
Qed.

(** The [i]-th running total is the start value plus the defined values up
    to and including index [i]. *)
Lemma running_sum_lookup (ys : list (option Q)) :
  forall (acc : Q) (i : nat),
    (i < length ys)%nat ->
    exists v, running_sum acc ys !! i = Some v
              /\ (v == acc + sum_defined (take (S i) ys))%Q.
Proof.
  induction ys as [| y ys IH]; intros acc i Hi; simpl in Hi; [lia |].
  destruct i as [| i].
  - simpl. eexists. split; [reflexivity |].
    destruct y; simpl; ring.
  - destruct (IH (match y with Some v => (acc + v)%Q | None => acc end) i)
      as (v & Hv & Heq); [lia |].
    exists v. split; [exact Hv |].
    rewrite Heq. change (take (S (S i)) (y :: ys)) with (y :: take (S i) ys).
    destruct y; simpl; ring.
Qed.

(** The effective series are the stored series, position by position, with
    only [visible] and [color] overridden. *)
Lemma visible_series_stored (th : Theme) (pd : ProcessedData.t)
    (cfg : ChartConfig.t) (s : SeriesData.t) :
  s ∈ visible_series th pd cfg ->
  exists i s0,
    ProcessedData.series pd !! i = Some s0
    /\ s = effective th cfg i s0
    /\ SeriesData.name s = SeriesData.name s0
    /\ SeriesData.x_values s = SeriesData.x_values s0
    /\ SeriesData.y_values s = SeriesData.y_values s0
    /\ SeriesData.visible s = true.
Proof.
  unfold visible_series. intros H.
  apply list_elem_of_filter in H as [Hvis H].
  apply list_elem_of_lookup in H as [i H].
  rewrite list_lookup_imap in H.
  destruct (ProcessedData.series pd !! i) as [s0 |] eqn:E; [| discriminate].
  simpl in H. injection H as <-.
  exists i, s0. repeat split; auto.
Qed.

(** C3.  In a cumulative chart the [k]-th trace belongs to the [k]-th
    visible series; its value at index [i] is the sum of the defined Y
    values of the series at indices 0..i, an undefined entry counting for
    zero, and its last value is the sum of all defined Y values. *)
Theorem cumulative_trace_running_sum (th : Theme) (pd : ProcessedData.t)
    (cfg : ChartConfig.t) (k : nat) (s : SeriesData.t) :
  ChartConfig.chart_type cfg = CUMULATIVE ->
  visible_series th pd cfg !! k = Some s ->
  exists tr,
    traces (build_chart th pd cfg) !! k = Some tr
    /\ name tr = SeriesData.name s
    /\ x tr = SeriesData.x_values s
    /\ length (y tr) = length (SeriesData.y_values s)
    /\ (forall i, (i < length (SeriesData.y_values s))%nat ->
          exists v, y tr !! i = Some (Some v)
                    /\ (v == sum_defined (take (S i) (SeriesData.y_values s)))%Q)
    /\ (SeriesData.y_values s <> [] ->
          exists v, last (y tr) = Some (Some v)
                    /\ (v == sum_defined (SeriesData.y_values s))%Q).
Proof.
  intros Hct Hk.
  assert (Hpoint : forall i, (i < length (SeriesData.y_values s))%nat ->
            exists v,
              map Some (running_sum 0 (SeriesData.y_values s)) !! i = Some (Some v)
              /\ (v == sum_defined (take (S i) (SeriesData.y_values s)))%Q).
  { intros i Hi.
    destruct (running_sum_lookup (SeriesData.y_values s) 0 i Hi) as (v & Hv & Heq).
    exists v. split.
    - rewrite lookup_map, Hv. reflexivity.
    - rewrite Heq. ring. }
  exists (series_trace CUMULATIVE s). split; [| split; [| split; [| split; [| split]]]].
  - unfold build_chart. simpl. rewrite Hct.
    rewrite lookup_app_l.
    + rewrite lookup_map, Hk. reflexivity.
    + rewrite length_map. eapply lookup_lt_Some. exact Hk.
  - reflexivity.
  - reflexivity.
  - simpl. now rewrite length_map, running_sum_length.
  - exact Hpoint.
  - intros Hne. simpl.
    destruct (Hpoint (pred (length (SeriesData.y_values s)))) as (v & Hv & Heq).
    { destruct (SeriesData.y_values s); [congruence | simpl; lia]. }
    exists v. split.
    + rewrite last_lookup, length_map, running_sum_length. exact Hv.
    + rewrite Heq. rewrite take_ge; [reflexivity |].
      destruct (SeriesData.y_values s); simpl; lia.
Qed.

Lemma cumulative_trace_running_sum_witness :
  exists tr,
    traces (build_chart Samples.sample_theme Samples.sample_data
                        Samples.sample_config) !! 0%nat = Some tr
    /\ name tr = "ValA"
    /\ x tr = [0; 30; 60]%Z
    /\ length (y tr) = 3%nat
    /\ (forall i, (i < 3)%nat ->
          exists v, y tr !! i = Some (Some v)
                    /\ (v == sum_defined (take (S i) [Some 10; None; Some 15]))%Q)
    /\ ([Some 10%Q; None; Some 15%Q] <> [] ->
          exists v, last (y tr) = Some (Some v)
                    /\ (v == sum_defined [Some 10; None; Some 15])%Q).
Proof.
  apply (cumulative_trace_running_sum Samples.sample_theme Samples.sample_data
           Samples.sample_config 0
           (effective Samples.sample_theme Samples.sample_config 0 Samples.ValA)).
  - reflexivity.
  - reflexivity.
Defined.

(** A line chart keeps the Y values of the series with their gaps. *)
Lemma line_trace_values (s : SeriesData.t) :
  y (series_trace LINE s) = SeriesData.y_values s.
Proof. reflexivity. Qed.

(** [show_legend] is a rendering hint: it does not change the traces. *)
Lemma show_legend_keeps_traces (th : Theme) (pd : ProcessedData.t)
    (cfg : ChartConfig.t) (b : bool) :
  traces (build_chart th pd
            (ChartConfig.mk (ChartConfig.session_id cfg) (ChartConfig.chart_type cfg)
               b (ChartConfig.show_defined_points cfg) (ChartConfig.show_p10 cfg)
               (ChartConfig.show_p50 cfg) (ChartConfig.show_p90 cfg)
               (ChartConfig.series_config cfg)))
  = traces (build_chart th pd cfg).
Proof. reflexivity. Qed.
End ChartSpecBuilderFacts.

(** * Further properties of the client *)

(** ** Series updates of the session slice *)

Section SeriesUpdateFacts.
Import SessionSlice SessionObs.

(** Writing at position [i] a series of the same name as the one stored
    there does not move any lookup by name. *)
Lemma find_series_insert (m : string) (i : nat) (s s' : SeriesData.t)
    (l : list SeriesData.t) :
  l !! i = Some s ->
  SeriesData.name s' = SeriesData.name s ->
  find_series m (<[i := s']> l)
  = match find_series m l with
    | Some (j, t) => Some (j, if decide (j = i) then s' else t)
    | None => None
    end.
Proof.
  intros Hi Hname. unfold find_series.
  assert (Hlt : (i < length l)%nat) by (eapply lookup_lt_Some; exact Hi).
  destruct (list_find _ l) as [[j t] |] eqn:E.
  - apply list_find_Some in E as (Hj & Hp & Hbefore).
    apply list_find_Some. destruct (decide (j = i)) as [-> | Hne].
    + assert (t = s) by congruence. subst t.
      split; [now apply list_lookup_insert_eq |].
      split; [congruence |].
      intros k y Hk Hki. rewrite list_lookup_insert_ne in Hk by lia. eauto.
    + split; [now rewrite list_lookup_insert_ne |].
      split; [exact Hp |].
      intros k y Hk Hkj. destruct (decide (k = i)) as [-> | Hki].
      * rewrite list_lookup_insert_eq in Hk by exact Hlt.
        injection Hk as <-. rewrite Hname. eauto.
      * rewrite list_lookup_insert_ne in Hk by congruence. eauto.
  - apply list_find_None. apply list_find_None in E.
    rewrite Forall_forall in E. apply Forall_forall. intros y Hy.
    apply list_elem_of_lookup in Hy as [k Hk].
    destruct (decide (k = i)) as [-> | Hki].
    + rewrite list_lookup_insert_eq in Hk by exact Hlt.
      injection Hk as <-. rewrite Hname.
      apply E. eapply list_elem_of_lookup_2. exact Hi.
    + rewrite list_lookup_insert_ne in Hk by congruence.
      apply E. eapply list_elem_of_lookup_2. exact Hk.
Qed.

Lemma find_series_lookup (n : string) (l : list SeriesData.t) (i : nat)
    (s : SeriesData.t) :
  find_series n l = Some (i, s) -> l !! i = Some s /\ SeriesData.name s = n.
Proof.
  unfold find_series. intros H. apply list_find_Some in H as (H1 & H2 & _). auto.
Qed.

Lemma map_name_insert (i : nat) (s s' : SeriesData.t) (l : list SeriesData.t) :
  l !! i = Some s ->
  SeriesData.name s' = SeriesData.name s ->
  map SeriesData.name (<[i := s']> l) = map SeriesData.name l.
Proof.
  revert i. induction l as [| x l IH]; intros [| i] Hi Hn; simpl in *;
    try discriminate.
  - injection Hi as ->. now rewrite Hn.
  - f_equal. now apply IH.
Qed.

(** X1.  The two update reducers keep the names of the stored series, and with
    them their number and order: a series is never added, removed, renamed
    or moved by an update. *)
Theorem series_updates_keep_names (state : SessionState) (n : string) :
  (forall v, series_names (reducer state (UpdateSeriesVisibility n v))
             = series_names state)
  /\ (forall c, series_names (reducer state (UpdateSeriesColor n c))
                = series_names state).
Proof.
  split; intros x; simpl;
    unfold updateSeriesVisibility, updateSeriesColor, series_names;
    destruct (processedData state) as [pd |] eqn:Epd; rewrite ?Epd; try reflexivity;
    destruct (find_series n (ProcessedData.series pd)) as [[i s] |] eqn:E;
    simpl; rewrite ?Epd; try reflexivity;
    apply find_series_lookup in E as [Hi _];
    f_equal; eapply map_name_insert; eauto.
Qed.

(** X2.  Of two updates of the same kind naming the same series, the later one
    decides: the state is the one the later update alone would give.  In
    particular an update applied twice is the same as applied once. *)
Theorem series_update_last_wins (state : SessionState) (n : string) :
  (forall v1 v2,
      reducer (reducer state (UpdateSeriesVisibility n v1))
              (UpdateSeriesVisibility n v2)
      = reducer state (UpdateSeriesVisibility n v2))
  /\ (forall c1 c2,
        reducer (reducer state (UpdateSeriesColor n c1)) (UpdateSeriesColor n c2)
        = reducer state (UpdateSeriesColor n c2)).
Proof.
  split; intros a b; simpl; unfold updateSeriesVisibility, updateSeriesColor;
    destruct (processedData state) as [pd |] eqn:Epd; rewrite ?Epd; try reflexivity;
    destruct (find_series n (ProcessedData.series pd)) as [[i s] |] eqn:E;
    simpl; rewrite ?Epd, ?E; try reflexivity;
    pose proof (find_series_lookup _ _ _ _ E) as [Hi _].
  - rewrite (find_series_insert n i s (SeriesData.set_visible a s)) by auto.
    rewrite E. rewrite decide_True by reflexivity.
    unfold ProcessedData.set_series. simpl. rewrite list_insert_insert_eq.
    reflexivity.
  - rewrite (find_series_insert n i s (SeriesData.set_color a s)) by auto.
    rewrite E. rewrite decide_True by reflexivity.
    unfold ProcessedData.set_series. simpl. rewrite list_insert_insert_eq.
    reflexivity.
Qed.

Lemma updateSeriesVisibility_shape (state : SessionState) (n : string) (v : bool) :
  updateSeriesVisibility state n v = update_with (SeriesData.set_visible v) state n.
Proof. reflexivity. Qed.

Lemma updateSeriesColor_shape (state : SessionState) (n : string) (c : string) :
  updateSeriesColor state n c = update_with (SeriesData.set_color c) state n.
Proof. reflexivity. Qed.

(** Two name-preserving assignments to series found by name commute,
    provided they commute on one series when both names are the same. *)
Lemma update_with_commute (f g : SeriesData.t -> SeriesData.t)
    (state : SessionState) (n m : string) :
  (forall s, SeriesData.name (f s) = SeriesData.name s) ->
  (forall s, SeriesData.name (g s) = SeriesData.name s) ->
  (n = m -> forall s, g (f s) = f (g s)) ->
  update_with g (update_with f state n) m
  = update_with f (update_with g state m) n.
Proof.
  intros Hf Hg Hfg. unfold update_with.
  destruct (processedData state) as [pd |] eqn:Epd; rewrite ?Epd; [| reflexivity].
  destruct (find_series n (ProcessedData.series pd)) as [[i s] |] eqn:En;
    destruct (find_series m (ProcessedData.series pd)) as [[j t] |] eqn:Em;
    simpl; rewrite ?Epd, ?En, ?Em; simpl; try reflexivity.
  - pose proof (find_series_lookup _ _ _ _ En) as [Hi Hni].
    pose proof (find_series_lookup _ _ _ _ Em) as [Hj Hmj].
    rewrite (find_series_insert m i s (f s)), Em by auto.
    rewrite (find_series_insert n j t (g t)), En by auto.
    destruct (decide (j = i)) as [-> | Hne].
    + assert (t = s) by congruence. subst t.
      rewrite decide_True by reflexivity.
      unfold ProcessedData.set_series. simpl.
      rewrite !list_insert_insert_eq.
      rewrite Hfg by congruence. reflexivity.
    + rewrite decide_False by congruence.
      unfold ProcessedData.set_series. simpl.
      rewrite list_insert_insert_ne by congruence. reflexivity.
  - pose proof (find_series_lookup _ _ _ _ En) as [Hi _].
    rewrite (find_series_insert m i s (f s)), Em by auto. reflexivity.
  - pose proof (find_series_lookup _ _ _ _ Em) as [Hj _].
    rewrite (find_series_insert n j t (g t)), En by auto. reflexivity.
Qed.

(** X3.  A visibility update and a colour update commute, whatever series they
    name: the two write different fields. *)
Theorem visibility_color_updates_commute (state : SessionState)
    (n m : string) (v : bool) (c : string) :
  reducer (reducer state (UpdateSeriesVisibility n v)) (UpdateSeriesColor m c)
  = reducer (reducer state (UpdateSeriesColor m c)) (UpdateSeriesVisibility n v).
Proof.
  simpl. rewrite !updateSeriesVisibility_shape, !updateSeriesColor_shape.
  apply update_with_commute; try reflexivity.
Qed.

(** X4.  Two updates of the same kind commute when they name different series. *)
Theorem updates_of_distinct_series_commute (state : SessionState) (n m : string) :
  n <> m ->
  (forall v w,
      reducer (reducer state (UpdateSeriesVisibility n v)) (UpdateSeriesVisibility m w)
      = reducer (reducer state (UpdateSeriesVisibility m w)) (UpdateSeriesVisibility n v))
  /\ (forall c d,
        reducer (reducer state (UpdateSeriesColor n c)) (UpdateSeriesColor m d)
        = reducer (reducer state (UpdateSeriesColor m d)) (UpdateSeriesColor n c)).
Proof.
  intros Hnm. split; intros a b; simpl;
    rewrite ?updateSeriesVisibility_shape, ?updateSeriesColor_shape;
    apply update_with_commute; try reflexivity; intros; congruence.
Qed.

Lemma updates_of_distinct_series_commute_witness :
  (forall v w,
      reducer (reducer Samples.sample_state (UpdateSeriesVisibility "ValA" v))
              (UpdateSeriesVisibility "ValB" w)
      = reducer (reducer Samples.sample_state (UpdateSeriesVisibility "ValB" w))
                (UpdateSeriesVisibility "ValA" v))
  /\ (forall c d,
        reducer (reducer Samples.sample_state (UpdateSeriesColor "ValA" c))
                (UpdateSeriesColor "ValB" d)
        = reducer (reducer Samples.sample_state (UpdateSeriesColor "ValB" d))
                  (UpdateSeriesColor "ValA" c)).
Proof.
  apply (updates_of_distinct_series_commute Samples.sample_state "ValA" "ValB").
  discriminate.
Defined.
End SeriesUpdateFacts.

(** ** The info line of the chart viewer *)

Section ChartInfoFacts.
Import SessionSlice SessionObs ChartViewer.

Lemma count_visible_le (l : list SeriesData.t) : (count_visible l <= length l)%nat.
Proof. unfold count_visible. apply List.filter_length_le. Qed.

Lemma count_visible_insert (i : nat) (s s' : SeriesData.t) (l : list SeriesData.t) :
  l !! i = Some s ->
  (count_visible (<[i := s']> l) + bool_to_nat (SeriesData.visible s)
   = count_visible l + bool_to_nat (SeriesData.visible s'))%nat.
Proof.
  unfold count_visible.
  revert i. induction l as [| x l IH]; intros [| i] Hi; simpl in *;
    try discriminate.
  - injection Hi as ->.
    destruct (SeriesData.visible s), (SeriesData.visible s'); simpl; lia.
  - specialize (IH i Hi). destruct (SeriesData.visible x); simpl; lia.
Qed.

(** X5.  The "visible / total" line follows the visibility updates: the total
    never changes; showing or hiding the series found by name moves the
    visible count by exactly the change of that one series; a colour update
    does not move it; and the visible count never exceeds the total. *)
Theorem chartInfo_follows_updates (st : Store.RootState) (n : string)
    (i : nat) (s : SeriesData.t) (info : ChartInfo) :
  find_series n (stored_series (Store.session st)) = Some (i, s) ->
  chartInfo st = Some info ->
  (visibleSeries info <= totalSeries info)%nat
  /\ (forall v, exists info',
        chartInfo (Store.reducer st (Store.Session (UpdateSeriesVisibility n v)))
        = Some info'
        /\ totalSeries info' = totalSeries info
        /\ (visibleSeries info' + bool_to_nat (SeriesData.visible s)
            = visibleSeries info + bool_to_nat v)%nat)
  /\ (forall c,
        chartInfo (Store.reducer st (Store.Session (UpdateSeriesColor n c)))
        = Some info).
Proof.
  unfold chartInfo, stored_series. simpl.
  destruct (ChartSlice.chartData (Store.chart st)) as [cd |]; [| discriminate].
  destruct (processedData (Store.session st)) as [pd |] eqn:Epd; [| discriminate].
  intros Hfind Hinfo. injection Hinfo as <-. simpl.
  pose proof (find_series_lookup _ _ _ _ Hfind) as [Hi _].
  split; [apply count_visible_le |]. split.
  - intros v. unfold updateSeriesVisibility. rewrite Epd, Hfind. simpl.
    eexists. split; [reflexivity |]. simpl.
    split; [apply length_insert |].
    apply (count_visible_insert i s (SeriesData.set_visible v s)). exact Hi.
  - intros c. unfold updateSeriesColor. rewrite Epd, Hfind. simpl.
    f_equal. f_equal; [| apply length_insert].
    pose proof (count_visible_insert i s (SeriesData.set_color c s) _ Hi) as H.
    simpl in H. lia.
Qed.

Lemma chartInfo_follows_updates_witness :
  (2 <= 2)%nat
  /\ (forall v, exists info',
        chartInfo (Store.reducer MoreSamples.loaded_store
                     (Store.Session (UpdateSeriesVisibility "ValB" v)))
        = Some info'
        /\ totalSeries info' = 2%nat
        /\ (visibleSeries info' + bool_to_nat true = 2 + bool_to_nat v)%nat)
  /\ (forall c,
        chartInfo (Store.reducer MoreSamples.loaded_store
                     (Store.Session (UpdateSeriesColor "ValB" c)))
        = Some (mkInfo 2 2)).
Proof.
  apply (chartInfo_follows_updates MoreSamples.loaded_store "ValB" 1
           Samples.ValB (mkInfo 2 2)).
  - reflexivity.
  - reflexivity.
Defined.
End ChartInfoFacts.

(** ** The chart slice *)

Section ChartSliceMoreFacts.
Import ChartSlice ChartMachine.

Lemma chart_reducer_preserves_generating_invariant (state : ChartState)
    (a : Action) :
  (isGenerating state = true -> generateError state = None) ->
  isGenerating (reducer state a) = true -> generateError (reducer state a) = None.
Proof.
  intros Hinv. destruct a; simpl; try exact Hinv; try reflexivity;
    try discriminate.
Qed.

Lemma chart_run_reachable (actions : list Action) : reachable (run actions).
Proof.
  unfold run. induction actions as [| a actions IH] using rev_ind; simpl.
  - apply reachable_init.
  - rewrite fold_left_app. simpl. now apply reachable_step.
Qed.

(** X6.  In every state the chart slice can reach, a chart request in flight
    implies that no generation error is recorded. *)
Theorem generating_implies_no_error (state : ChartState) :
  reachable state -> isGenerating state = true -> generateError state = None.
Proof.
  induction 1 as [| state a Hreach IH].
  - discriminate.
  - now apply chart_reducer_preserves_generating_invariant.
Qed.

Lemma generating_implies_no_error_witness :
  generateError (run [GenerateChartRejected (Some "Failed to generate chart");
                      ToggleP10; GetChartPreviewPending])
  = None.
Proof.
  apply generating_implies_no_error.
  - apply chart_run_reachable.
  - reflexivity.
Defined.

(** X7.  The display settings and the chart on display are written by disjoint
    sets of actions: a settings action leaves the chart data, the
    configuration it was built with, the colours and the request status
    alone; every other action, among them the arrival of a new upload or
    chart and [resetChart], leaves the settings alone. *)
Theorem settings_and_chart_are_separate (state : ChartState) (a : Action) :
  if is_settings_action a
  then chartData (reducer state a) = chartData state
       /\ chartConfig (reducer state a) = chartConfig state
       /\ statisticsColors (reducer state a) = statisticsColors state
       /\ isGenerating (reducer state a) = isGenerating state
       /\ generateError (reducer state a) = generateError state
  else settings (reducer state a) = settings state.
Proof. destruct a; simpl; repeat split. Qed.

(** X8.  [updateSettings] is a merge: the empty payload changes nothing, two
    updates in a row are one update with the merged payload, and each toggle
    and [setChartType] is the update with the single key it writes. *)
Theorem updateSettings_algebra (state : ChartState) :
  reducer state (UpdateSettings empty_partial) = state
  /\ (forall p q,
        reducer (reducer state (UpdateSettings p)) (UpdateSettings q)
        = reducer state (UpdateSettings (merge p q)))
  /\ (forall f,
        reducer state (toggle f)
        = reducer state
            (UpdateSettings (only_flag f (negb (flag f (settings state))))))
  /\ (forall t,
        reducer state (SetChartType t)
        = reducer state (UpdateSettings (only_chartType t))).
Proof.
  destruct state as [cd cfg [l d a b c t] col g e].
  split; [reflexivity |]. split; [| split].
  - intros [pl pd pa pb pc pt] [ql qd qa qb qc qt].
    unfold reducer, updateSettings, set_settings, merge. simpl.
    destruct ql, qd, qa, qb, qc, qt; reflexivity.
  - intros []; reflexivity.
  - intros t'. reflexivity.
Qed.

(** X9.  Toggles of any two flags commute, and a toggle commutes with a change
    of the chart type. *)
Theorem toggles_commute (state : ChartState) (f g : Flag) (t : ChartType) :
  reducer (reducer state (toggle f)) (toggle g)
  = reducer (reducer state (toggle g)) (toggle f)
  /\ reducer (reducer state (toggle f)) (SetChartType t)
     = reducer (reducer state (SetChartType t)) (toggle f).
Proof. destruct f, g; split; reflexivity. Qed.
End ChartSliceMoreFacts.

(** ** The UI slice *)

Section UiSliceFacts.
Import UiSlice.

(** X10.  [toggleSidebar] is an involution that writes only [sidebarCollapsed];
    [clearErrors] is idempotent, empties both error fields and leaves the
    export flag and the sidebar alone. *)
Theorem ui_toggle_and_clear (state : UiState) :
  reducer (reducer state ToggleSidebar) ToggleSidebar = state
  /\ sidebarCollapsed (reducer state ToggleSidebar) = negb (sidebarCollapsed state)
  /\ isExporting (reducer state ToggleSidebar) = isExporting state
  /\ exportError (reducer state ToggleSidebar) = exportError state
  /\ globalError (reducer state ToggleSidebar) = globalError state
  /\ reducer (reducer state ClearErrors) ClearErrors = reducer state ClearErrors
  /\ exportError (reducer state ClearErrors) = None
  /\ globalError (reducer state ClearErrors) = None
  /\ isExporting (reducer state ClearErrors) = isExporting state
  /\ sidebarCollapsed (reducer state ClearErrors) = sidebarCollapsed state.
Proof.
  destruct state as [e x g s]. simpl. unfold toggleSidebar. simpl.
  rewrite negb_involutive. repeat split.
Qed.
End UiSliceFacts.

(** ** Error messages of the API client *)

Section ErrorMessageFacts.
Import ApiService.

Lemma truthy_nonempty (s : string) : Js.truthy s = true <-> s <> EmptyString.
Proof.
  unfold Js.truthy. rewrite negb_true_iff.
  destruct (String.eqb_spec s EmptyString) as [-> | Hne]; split;
    congruence.
Qed.

Lemma or_else_nonempty (o : option string) (fallback : string) :
  fallback <> EmptyString -> Js.or_else o fallback <> EmptyString.
Proof.
  intros Hf. unfold Js.or_else. destruct o as [s |]; [| exact Hf].
  destruct (Js.truthy s) eqn:E; [| exact Hf]. now apply truthy_nonempty.
Qed.

Lemma or_else_self (s fallback : string) :
  s <> EmptyString -> Js.or_else (Some s) fallback = s.
Proof.
  intros Hs. unfold Js.or_else.
  apply truthy_nonempty in Hs. now rewrite Hs.
Qed.

(** X11.  The message thrown by the response interceptor is the [detail] of the
    error response when there is a non-empty one; it is empty only for an
    error without response and without request whose own message is empty. *)
Theorem interceptor_message (error : AxiosError) :
  (forall detail, response error = Some (Some detail) -> detail <> EmptyString ->
                  interceptor error = detail)
  /\ (interceptor error = EmptyString
      <-> response error = None /\ request error = false
          /\ message error = EmptyString).
Proof.
  unfold interceptor. split.
  - intros detail -> Hd. now apply or_else_self.
  - destruct (response error) as [detail |].
    + split; [| intros [H _]; discriminate].
      intros H. exfalso. revert H. now apply or_else_nonempty.
    + destruct (request error); split; try discriminate; try tauto.
      intros (_ & H & _). discriminate.
Qed.

Lemma interceptor_message_witness :
  interceptor (mkError (Some (Some "Session not found")) true "Request failed")
  = "Session not found".
Proof.
  apply (proj1 (interceptor_message
                  (mkError (Some (Some "Session not found")) true "Request failed"))
           "Session not found").
  - reflexivity.
  - discriminate.
Defined.
End ErrorMessageFacts.

(** ** The upload gate, continued *)

Section UploadGateMessages.
Import FileUploader.

(** X12.  The gate has three outcomes: it accepts silently; it refuses a file
    that is not CSV with the CSV message, whatever its size; it refuses a
    CSV file of 50 MB or more with the size message.  It never raises two
    messages, and none when it accepts. *)
Theorem beforeUpload_outcomes (file : File.t) :
  let isCSV := File.type file = "text/csv"
               \/ exists p, File.name file = p +:+ ".csv" in
  (beforeUpload file = (true, [])
   /\ isCSV /\ (File.size file < 50 * 1024 * 1024)%N)
  \/ (beforeUpload file = (false, ["You can only upload CSV files!"])
      /\ ~ isCSV)
  \/ (beforeUpload file = (false, ["File must be smaller than 50MB!"])
      /\ isCSV /\ (50 * 1024 * 1024 <= File.size file)%N).
Proof.
  simpl. unfold beforeUpload.
  destruct (bool_decide _ || endsWith _ _) eqn:Ecsv; simpl.
  - apply isCSV_spec in Ecsv.
    destruct (Qltb _ 50) eqn:Elt; simpl.
    + left. apply isLt50M_bytes in Elt. auto.
    + right. right. split; [reflexivity |]. split; [exact Ecsv |].
      destruct (N.lt_ge_cases (File.size file) (50 * 1024 * 1024)) as [H | H];
        [| exact H].
      apply isLt50M_bytes in H. congruence.
  - right. left. split; [reflexivity |].
    intros H. apply isCSV_spec in H. congruence.
Qed.
End UploadGateMessages.

(** ** The store and the hooks *)

Section StoreFacts.
Import Store.

(** X13.  Each slice of a reachable store state is a reachable state of that
    slice: the invariants of the slices hold in the combined store. *)
Theorem store_reachable_projects (st : RootState) :
  reachable st ->
  SessionSlice.reachable (session st) /\ ChartMachine.reachable (chart st).
Proof.
  induction 1 as [| st a _ [IHs IHc]].
  - split; constructor.
  - split.
    + destruct a as [a | a | a]; simpl; [now constructor | exact IHs | exact IHs].
    + destruct a as [a | a | a]; simpl; try exact IHc.
      * destruct a; try exact IHc.
        exact (ChartMachine.reachable_step _ ChartSlice.UploadFileFulfilled IHc).
      * now constructor.
Qed.

Lemma store_reachable_projects_witness :
  SessionSlice.reachable
    (session (reducer initialState (Session SessionSlice.UploadFilePending)))
  /\ ChartMachine.reachable
       (chart (reducer initialState (Session SessionSlice.UploadFilePending))).
Proof.
  apply store_reachable_projects.
  apply reachable_step, reachable_init.
Defined.
End StoreFacts.

Section UploadFacts.
Import Store Hooks.

Lemma uploadFile_payload_nonempty (srv : ApiService.Server) (file : File.t)
    (msg : string) :
  Thunks.uploadFile_payload srv file = inl msg -> msg <> EmptyString.
Proof.
  unfold Thunks.uploadFile_payload.
  destruct (ApiService.settle (ApiService.uploadCSV srv file)) as [m | r].
  - intros H. injection H as <-.
    apply (or_else_nonempty (Some m)). discriminate.
  - destruct (ApiService.settle _) as [m | pd]; [| discriminate].
    intros H. injection H as <-.
    apply (or_else_nonempty (Some m)). discriminate.
Qed.

(** X14.  What an upload leaves in the store.  The upload flag is down again and
    the settings and the UI slice are untouched.  On success the session is
    the new one, without error, and the chart slice is emptied so that no
    chart of the previous file stays on display.  On failure a non-empty
    error message is recorded and shown, and the previous session, its data
    and the chart are kept. *)
Theorem handleUploadFile_outcome (srv : ApiService.Server) (file : File.t)
    (st : RootState) :
  let '(st', effects, result) := handleUploadFile srv file st in
  SessionSlice.isUploading (session st') = false
  /\ ui st' = ui st
  /\ ChartSlice.settings (chart st') = ChartSlice.settings (chart st)
  /\ match result with
     | inr (r, pd) =>
         SessionSlice.sessionId (session st') = Some (UploadResponse.session_id r)
         /\ SessionSlice.processedData (session st') = Some pd
         /\ SessionSlice.uploadError (session st') = None
         /\ ChartSlice.chartData (chart st') = None
         /\ ChartSlice.chartConfig (chart st') = None
         /\ ChartSlice.isGenerating (chart st') = false
         /\ ChartSlice.generateError (chart st') = None
         /\ effects = [Message Success
                         ("File uploaded: " +:+ UploadResponse.original_filename r)]
     | inl msg =>
         msg <> EmptyString
         /\ SessionSlice.uploadError (session st') = Some msg
         /\ SessionSlice.sessionId (session st') = SessionSlice.sessionId (session st)
         /\ SessionSlice.processedData (session st')
            = SessionSlice.processedData (session st)
         /\ chart st' = chart st
         /\ effects = [Message Error msg]
     end.
Proof.
  unfold handleUploadFile, Thunks.uploadFile.
  destruct (Thunks.uploadFile_payload srv file) as [msg | [r pd]] eqn:E; simpl.
  - pose proof (uploadFile_payload_nonempty _ _ _ E) as Hne.
    rewrite (proj2 (truthy_nonempty msg) Hne).
    repeat split; auto.
  - repeat split.
Qed.

(** X15.  What the uploader and the chart viewer show after an upload.  After a
    success the uploader shows the status panel of the new file and the
    toolbar is enabled; the chart is generated automatically exactly when
    the new session id is not empty and differs from the last one
    generated.  After a failure without data loaded, the drop zone is
    enabled again and the error is shown beneath it. *)
Theorem upload_is_visible (srv : ApiService.Server) (file : File.t)
    (st : RootState) (last : option string) :
  let '(st', _, result) := handleUploadFile srv file st in
  match result with
  | inr (r, pd) =>
      FileUploaderView.render st'
      = FileUploaderView.Status (ProcessedData.original_filename pd)
                                (length (ProcessedData.series pd)) false
      /\ Toolbar.isDisabled st' = false
      /\ ChartViewer.shouldGenerate st' last
         = Js.truthy (UploadResponse.session_id r)
           && negb (bool_decide (last = Some (UploadResponse.session_id r)))
  | inl msg =>
      SessionSlice.processedData (session st) = None ->
      FileUploaderView.render st' = FileUploaderView.Dragger false (Some msg)
  end.
Proof.
  unfold handleUploadFile, Thunks.uploadFile.
  destruct (Thunks.uploadFile_payload srv file) as [msg | [r pd]] eqn:E; simpl.
  - intros Hnone. unfold FileUploaderView.render. simpl. rewrite Hnone.
    pose proof (uploadFile_payload_nonempty _ _ _ E) as Hne.
    apply truthy_nonempty in Hne. now rewrite Hne.
  - repeat split.
Qed.

Lemma upload_is_visible_witness :
  FileUploaderView.render
    (fst (fst (handleUploadFile MoreSamples.unreachable_server
                 Samples.sample_csv_file initialState)))
  = FileUploaderView.Dragger false
      (Some "Network error. Please check your connection.").
Proof.
  exact (upload_is_visible MoreSamples.unreachable_server
           Samples.sample_csv_file initialState None eq_refl).
Defined.
End UploadFacts.

Section GenerateFacts.
Import Store Hooks.

(** X16.  What [generateChart] leaves in the store.  The session, the UI slice
    and the settings are untouched and the request flag is down again.
    Without a session id (null or empty) or without data the thunk is
    rejected before any request, whatever the server would answer.  On
    success the stored configuration is the one built from the session id,
    the stored series and the current settings, not the one the server
    echoes.  On failure a non-empty message is recorded and the chart on
    display is kept. *)
Theorem generateChart_outcome (srv : ApiService.Server) (st : RootState) :
  let '(st', result) := Thunks.generateChart srv st in
  session st' = session st
  /\ ui st' = ui st
  /\ ChartSlice.settings (chart st') = ChartSlice.settings (chart st)
  /\ ChartSlice.isGenerating (chart st') = false
  /\ (Js.truthy_opt (SessionSlice.sessionId (session st)) = false
      \/ SessionSlice.processedData (session st) = None ->
      result = inl "No session data available")
  /\ match result with
     | inr (cd, cfg, colors) =>
         (exists sessionId pd,
             SessionSlice.sessionId (session st) = Some sessionId
             /\ SessionSlice.processedData (session st) = Some pd
             /\ cfg = Thunks.generateChart_config sessionId pd
                        (ChartSlice.settings (chart st)))
         /\ ChartSlice.chartData (chart st') = cd
         /\ ChartSlice.chartConfig (chart st') = Some cfg
         /\ ChartSlice.statisticsColors (chart st') = Some colors
         /\ ChartSlice.generateError (chart st') = None
     | inl msg =>
         msg <> EmptyString
         /\ ChartSlice.generateError (chart st') = Some msg
         /\ ChartSlice.chartData (chart st') = ChartSlice.chartData (chart st)
         /\ ChartSlice.chartConfig (chart st') = ChartSlice.chartConfig (chart st)
         /\ ChartSlice.statisticsColors (chart st')
            = ChartSlice.statisticsColors (chart st)
     end.
Proof.
  unfold Thunks.generateChart, Thunks.generateChart_payload. simpl.
  destruct (SessionSlice.sessionId (session st)) as [sid |] eqn:Esid; simpl.
  2: { repeat split; auto; discriminate. }
  destruct (SessionSlice.processedData (session st)) as [pd |] eqn:Epd; simpl.
  2: { repeat split; auto; discriminate. }
  destruct (Js.truthy sid) eqn:Et; simpl.
  2: { repeat split; auto; discriminate. }
  destruct (ApiService.settle _) as [m | resp] eqn:Eres; simpl.
  - repeat split; auto.
    + intros [H | H]; discriminate.
    + apply (or_else_nonempty (Some m)). discriminate.
  - repeat split; auto.
    + intros [H | H]; discriminate.
    + exists sid, pd. auto.
Qed.

Lemma generateChart_outcome_witness :
  snd (Thunks.generateChart MoreSamples.friendly_server initialState)
  = inl "No session data available".
Proof.
  pose proof (generateChart_outcome MoreSamples.friendly_server initialState) as H.
  cbv beta iota zeta delta [Thunks.generateChart] in H.
  apply H. left. reflexivity.
Defined.

(** The configuration sent by [generateChart] has one [series_config]
    entry per stored series, in order, carrying that series' name,
    visibility and colour; the flags are the current settings. *)
Lemma generateChart_config_mirrors_store (sessionId : string)
    (pd : ProcessedData.t) (settings : ChartSlice.ChartSettings) (i : nat) :
  let cfg := Thunks.generateChart_config sessionId pd settings in
  exists entries,
    ChartConfig.series_config cfg = Some entries
    /\ length entries = length (ProcessedData.series pd)
    /\ entries !! i
       = (fun s => SeriesConfig.mk (SeriesData.name s) (SeriesData.visible s)
                                   (SeriesData.color s))
           <$> ProcessedData.series pd !! i.
Proof.
  simpl. eexists. split; [reflexivity |].
  split; [apply length_map | apply lookup_map].
Qed.
End GenerateFacts.

Section ResetFacts.
Import Store Hooks.

(** X17.  Deleting the session on the server and clearing it locally.  When the
    store holds a non-empty session id and the server accepts, the store
    ends in exactly the state the local "reset" gives.  In every other case
    (no session id, an empty one, or a failed request) the store is left
    untouched and one warning or error toast is shown. *)
Theorem handleDeleteSession_outcome (srv : ApiService.Server) (st : RootState) :
  let '(st', effects) := handleDeleteSession srv st in
  match sessionId_of st with
  | Some sessionId =>
      if Js.truthy sessionId then
        match ApiService.deleteSession srv sessionId with
        | inr _ =>
            st' = fst (handleResetSession st)
            /\ effects = [Message Success "Session reset successfully"]
        | inl _ =>
            st' = st
            /\ exists msg, msg <> EmptyString /\ effects = [Message Error msg]
        end
      else st' = st /\ effects = [Message Warning "No active session to delete"]
  | None => st' = st /\ effects = [Message Warning "No active session to delete"]
  end.
Proof.
  unfold handleDeleteSession, Thunks.deleteSession, Thunks.deleteSession_payload.
  destruct (sessionId_of st) as [sid |]; [| split; reflexivity].
  destruct (Js.truthy sid); [| split; reflexivity].
  destruct (ApiService.deleteSession srv sid) as [e | u]; simpl.
  - destruct st as [s c u]. split; [reflexivity |].
    eexists. split; [| reflexivity].
    apply (or_else_nonempty
             (Some (Js.or_else (Some (ApiService.interceptor e))
                               "Failed to delete session"))
             "Failed to reset session").
    discriminate.
  - split; reflexivity.
Qed.

(** The local reset empties the session and the chart on display and
    keeps everything else: the upload flag, the display settings, the
    statistics colours, the request flag and the UI slice. *)
Lemma handleResetSession_outcome (st : RootState) :
  let st' := fst (handleResetSession st) in
  SessionSlice.sessionId (session st') = None
  /\ SessionSlice.processedData (session st') = None
  /\ SessionSlice.uploadError (session st') = None
  /\ SessionSlice.isUploading (session st') = SessionSlice.isUploading (session st)
  /\ ChartSlice.chartData (chart st') = None
  /\ ChartSlice.chartConfig (chart st') = None
  /\ ChartSlice.generateError (chart st') = None
  /\ ChartSlice.settings (chart st') = ChartSlice.settings (chart st)
  /\ ChartSlice.statisticsColors (chart st') = ChartSlice.statisticsColors (chart st)
  /\ ChartSlice.isGenerating (chart st') = ChartSlice.isGenerating (chart st)
  /\ ui st' = ui st
  /\ fst (handleResetSession st') = st'.
Proof. simpl. repeat split. Qed.
End ResetFacts.

Section ExportFacts.
Import Store Hooks.

Lemma toLowerCase_value (format : ExportFormat.t) :
  Js.toLowerCase (ExportFormat.value format) = ExportFormat.value format.
Proof. destruct format; reflexivity. Qed.

(** X18.  What [exportData] leaves in the store.  Only the export flag and the
    export error of the UI slice are written.  Without a session id (null
    or empty) nothing is dispatched or requested.  Otherwise the export flag
    ends down; on success the export error is cleared and one file named
    "data_insights_<now>.<format>" is downloaded; on failure a non-empty
    message is recorded and shown, and nothing is downloaded. *)
Theorem exportData_outcome (srv : ApiService.Server) (now : string)
    (format : ExportFormat.t) (width height : option Q) (st : RootState) :
  let '(st', effects) := exportData srv now format width height st in
  session st' = session st
  /\ chart st' = chart st
  /\ UiSlice.globalError (ui st') = UiSlice.globalError (ui st)
  /\ UiSlice.sidebarCollapsed (ui st') = UiSlice.sidebarCollapsed (ui st)
  /\ match sessionId_of st with
     | Some sessionId =>
         if Js.truthy sessionId then
           UiSlice.isExporting (ui st') = false
           /\ match ApiService.exportData srv sessionId format width height with
              | inr blob =>
                  UiSlice.exportError (ui st') = None
                  /\ effects
                     = [Download blob
                          ("data_insights_" +:+ now +:+ "."
                           +:+ ExportFormat.value format);
                        Message Success
                          ("Exported as "
                           +:+ Js.toUpperCase (ExportFormat.value format))]
              | inl _ =>
                  exists msg,
                    msg <> EmptyString
                    /\ UiSlice.exportError (ui st') = Some msg
                    /\ effects = [Message Error msg]
              end
         else st' = st /\ effects = [Message Error "No session available"]
     | None => st' = st /\ effects = [Message Error "No session available"]
     end.
Proof.
  unfold exportData.
  destruct (sessionId_of st) as [sid |]; [| repeat split].
  destruct (Js.truthy sid); [| repeat split].
  destruct (ApiService.exportData srv sid format width height) as [e | blob];
    simpl.
  - repeat split. eexists. split; [| split; reflexivity].
    apply (or_else_nonempty (Some (ApiService.interceptor e)) "Failed to export").
    discriminate.
  - rewrite toLowerCase_value. repeat split.
Qed.

(** X19.  [exportCSV] and [exportHTML] never record their outcome: the export
    error is never written, and the store ends in the same state whatever
    the server answers. *)
Theorem export_blob_leaves_no_trace (srv srv' : ApiService.Server) (now : string)
    (st : RootState) :
  fst (exportCSV srv now st) = fst (exportCSV srv' now st)
  /\ fst (exportHTML srv now st) = fst (exportHTML srv' now st)
  /\ UiSlice.exportError (ui (fst (exportCSV srv now st)))
     = UiSlice.exportError (ui st)
  /\ UiSlice.exportError (ui (fst (exportHTML srv now st)))
     = UiSlice.exportError (ui st).
Proof.
  unfold exportCSV, exportHTML, export_blob.
  destruct (sessionId_of st) as [sid |]; [| repeat split].
  destruct (Js.truthy sid); [| repeat split].
  destruct (ApiService.exportCSV srv sid), (ApiService.exportCSV srv' sid),
    (ApiService.exportHTML srv sid), (ApiService.exportHTML srv' sid);
    simpl; repeat split.
Qed.

(** X20.  A file produced by [exportCSV] passes the upload gate whatever MIME
    type the browser reports for it, as long as it is smaller than 50 MB. *)
Theorem exported_csv_passes_gate (srv : ApiService.Server) (now : string)
    (st : RootState) (blob filename type : string) (size : N) :
  In (Download blob filename) (snd (exportCSV srv now st)) ->
  (size < 50 * 1024 * 1024)%N ->
  FileUploader.beforeUpload (File.mk type filename size) = (true, []).
Proof.
  unfold exportCSV, export_blob. intros Hin Hsize.
  assert (Hname : filename = ("data_insights_" +:+ now) +:+ ".csv").
  { destruct (sessionId_of st) as [sid |];
      [| simpl in Hin; destruct Hin as [H | []]; discriminate].
    destruct (Js.truthy sid);
      [| simpl in Hin; destruct Hin as [H | []]; discriminate].
    destruct (ApiService.settle _); simpl in Hin.
    - destruct Hin as [H | []]; discriminate.
    - destruct Hin as [H | [H | []]]; [| discriminate].
      injection H as _ <-. reflexivity. }
  unfold FileUploader.beforeUpload. simpl.
  assert (Hcsv : bool_decide (type = "text/csv")
                 || FileUploader.endsWith filename ".csv" = true).
  { apply orb_true_iff. right. apply endsWith_spec.
    exists ("data_insights_" +:+ now). exact Hname. }
  rewrite Hcsv. simpl.
  rewrite (proj2 (isLt50M_bytes size) Hsize). reflexivity.
Qed.

Lemma exported_csv_passes_gate_witness :
  FileUploader.beforeUpload
    (File.mk "application/vnd.ms-excel" "data_insights_1700000000000.csv" 4096)
  = (true, []).
Proof.
  apply (exported_csv_passes_gate MoreSamples.friendly_server "1700000000000"
           MoreSamples.loaded_store "x,y").
  - simpl. left. reflexivity.
  - reflexivity.
Defined.
End ExportFacts.

Section ViewerFacts.
Import Store Hooks ChartViewer.

(** X21.  The viewer shows the outcome of a chart request: the spinner while the
    request is pending; afterwards the error alert with the recorded
    message when it failed, the plot when a chart came back, and the
    placeholder for loaded data when the response carried no chart. *)
Theorem viewer_shows_generation_outcome (srv : ApiService.Server)
    (st : RootState) :
  view (reducer st (Chart ChartSlice.GenerateChartPending)) = Loading
  /\ let '(st', result) := Thunks.generateChart srv st in
     match result with
     | inl msg => view st' = Failure msg
     | inr (Some cd, _, _) => view st' = Plot cd (chartInfo st')
     | inr (None, _, _) => view st' = Empty true
     end.
Proof.
  split; [reflexivity |].
  unfold Thunks.generateChart, Thunks.generateChart_payload, view. simpl.
  destruct (SessionSlice.sessionId (session st)) as [sid |]; [| reflexivity].
  destruct (SessionSlice.processedData (session st)) as [pd |] eqn:Epd;
    [| reflexivity].
  destruct (Js.truthy sid); [| reflexivity].
  destruct (ApiService.settle _) as [m | resp]; simpl.
  - assert (Hne : Js.or_else (Some m) "Failed to generate chart" <> EmptyString)
      by (apply or_else_nonempty; discriminate).
    apply truthy_nonempty in Hne. simpl in Hne. rewrite Hne. reflexivity.
  - destruct (ChartResponse.chart resp); reflexivity.
Qed.

Lemma shouldGenerate_fires (srv : ApiService.Server) (st : RootState)
    (last : option string) :
  shouldGenerate st last = true ->
  exists sid, snd (autoGenerate srv st last) = Some sid /\ last <> Some sid.
Proof.
  intros Hfire. unfold autoGenerate. rewrite Hfire. simpl.
  unfold shouldGenerate in Hfire.
  destruct (SessionSlice.processedData (session st)); [| discriminate].
  destruct (ChartSlice.chartData (chart st)); [discriminate |].
  destruct (SessionSlice.sessionId (session st)) as [sid |]; [| discriminate].
  exists sid. split; [reflexivity |].
  apply andb_true_iff in Hfire as [_ Hne].
  apply negb_true_iff, bool_decide_eq_false in Hne. exact Hne.
Qed.

Lemma shouldGenerate_idle (srv : ApiService.Server) (st : RootState)
    (last : option string) :
  shouldGenerate st last = false -> snd (autoGenerate srv st last) = last.
Proof. intros Hidle. unfold autoGenerate. now rewrite Hidle. Qed.

(** The first firing of a viewer is never for the id its ref holds. *)
Lemma firings_head (srv : ApiService.Server) (renders : list RootState) :
  forall last sid, last = Some sid -> head (firings srv last renders) <> Some sid.
Proof.
  induction renders as [| st rest IH]; intros last sid Hlast; simpl;
    [discriminate |].
  destruct (shouldGenerate st last) eqn:Hfire.
  - destruct (shouldGenerate_fires srv st last Hfire) as (sid' & -> & Hne).
    simpl. congruence.
  - rewrite (shouldGenerate_idle srv st last Hfire). simpl. now apply IH.
Qed.

(** X22.  Within one mounted chart viewer the automatic generation never
    fires twice in a row for the same session id, whatever store states the
    effect is run on and whether the generations succeed or fail: the
    first firing is not for the id the ref already holds, and of two
    consecutive firings the second is for a different id than the first. *)
Theorem autoGenerate_no_repeat (srv : ApiService.Server)
    (renders : list RootState) (last : option string) :
  (forall sid, last = Some sid -> head (firings srv last renders) <> Some sid)
  /\ (forall i a b,
        firings srv last renders !! i = Some a ->
        firings srv last renders !! S i = Some b ->
        a <> b).
Proof.
  split; [intros sid; apply firings_head |].
  revert last. induction renders as [| st rest IH]; intros last i a b; simpl;
    [discriminate |].
  destruct (shouldGenerate st last) eqn:Hfire.
  - destruct (shouldGenerate_fires srv st last Hfire) as (sid & -> & _).
    simpl. destruct i as [| i]; simpl.
    + intros Ha Hb. injection Ha as <-.
      pose proof (firings_head srv rest (Some sid) sid eq_refl) as Hhead.
      destruct (firings srv (Some sid) rest); simpl in *; congruence.
    + apply IH.
  - rewrite (shouldGenerate_idle srv st last Hfire). simpl. apply IH.
Qed.

Lemma autoGenerate_no_repeat_witness : "s-1" <> "s-2".
Proof.
  apply (proj2 (autoGenerate_no_repeat MoreSamples.unreachable_server
                  [MoreSamples.awaiting_chart; MoreSamples.awaiting_chart;
                   MoreSamples.other_session; MoreSamples.awaiting_chart]
                  None) 0%nat).
  - reflexivity.
  - reflexivity.
Defined.

(** The same id fires again once another session has fired in between,
    and again in a freshly mounted viewer, whose ref is empty. *)
Example firings_sample :
  firings MoreSamples.unreachable_server None
    [MoreSamples.awaiting_chart; MoreSamples.awaiting_chart;
     MoreSamples.other_session; MoreSamples.awaiting_chart]
  = ["s-1"; "s-2"; "s-1"]
  /\ firings MoreSamples.unreachable_server None [MoreSamples.awaiting_chart]
     = ["s-1"].
Proof. split; reflexivity. Qed.
End ViewerFacts.
